(** * Plugin manager of kantek (kantek/utils/pluginmgr.py)

    A shallow embedding of the plugin manager: the string and path
    helpers of [os.path] and [str] it relies on, the syntax trees and
    runtime objects it introspects, and the registry operations
    [register_all], [unregister_all] and [unregister_plugin] as state
    transformers that may raise Python exceptions. *)

From Stdlib Require Import String Ascii List Bool ZArith Lia.
Import ListNotations.
Open Scope string_scope.
Open Scope list_scope.
Set Warnings "-register-all".


(** ** Python strings as lists of characters *)

Module PyStr.

Definition chars (s : string) : list ascii := list_ascii_of_string s.
Definition of_chars (l : list ascii) : string := string_of_list_ascii l.

Definition slash : ascii := "/"%char.
Definition backslash : ascii := "092"%char.
Definition dot : ascii := "."%char.

Definition mem (c : ascii) (cs : list ascii) : bool :=
  existsb (fun d => Ascii.eqb c d) cs.

(** Drop the leading characters of [l] that occur in [cs]. *)
Fixpoint drop_in (cs : list ascii) (l : list ascii) : list ascii :=
  match l with
  | [] => []
  | c :: l' => if mem c cs then drop_in cs l' else l
  end.

(** [s.rstrip(cs)]: strip every trailing character that occurs in [cs]
    (a set of characters, not a suffix). *)
Definition rstrip (cs : string) (s : string) : string :=
  of_chars (rev (drop_in (chars cs) (rev (chars s)))).

(** [s.replace(a, b)] for single characters. *)
Definition replace_char (a b : ascii) (s : string) : string :=
  of_chars (map (fun c => if Ascii.eqb c a then b else c) (chars s)).

(** [s.startswith(p)]. *)
Definition startswith (s p : string) : bool := String.prefix p s.

(** [sep.join(parts)]. *)
Fixpoint join_with (sep : string) (parts : list string) : string :=
  match parts with
  | [] => ""
  | [p] => p
  | p :: ps => p ++ sep ++ join_with sep ps
  end.

(** [s.split(c)] for a single character. *)
Fixpoint split_chars (c : ascii) (l : list ascii) : list (list ascii) :=
  match l with
  | [] => [[]]
  | d :: l' =>
      if Ascii.eqb d c then [] :: split_chars c l'
      else match split_chars c l' with
           | [] => [[d]]
           | w :: ws => (d :: w) :: ws
           end
  end.

Definition split (c : ascii) (s : string) : list string :=
  map of_chars (split_chars c (chars s)).

End PyStr.

(** ** [posixpath]: the parts of [os.path] used by the plugin manager *)

Module PosixPath.
Import PyStr.

Definition isabs (p : string) : bool :=
  match chars p with c :: _ => Ascii.eqb c slash | [] => false end.

Definition ends_with_slash (p : string) : bool :=
  match rev (chars p) with c :: _ => Ascii.eqb c slash | [] => false end.

(** [os.path.join(a, b)] for two components. *)
Definition join (a b : string) : string :=
  if isabs b then b
  else if (a =? "") || ends_with_slash a then a ++ b
  else a ++ "/" ++ b.

(** The components of [os.path.normpath] of an absolute path: empty and
    ["."] components dropped, [".."] cancels the previous component and is
    dropped at the root. *)
Fixpoint norm_parts (acc : list string) (parts : list string) : list string :=
  match parts with
  | [] => rev acc
  | p :: ps =>
      if (p =? "") || (p =? ".") then norm_parts acc ps
      else if p =? ".." then norm_parts (tl acc) ps
      else norm_parts (p :: acc) ps
  end.

(** [[x for x in abspath(p).split(sep) if x]] for an absolute [p]. *)
Definition abs_parts (p : string) : list string :=
  norm_parts [] (split slash p).

Fixpoint common_prefix_len (a b : list string) : nat :=
  match a, b with
  | x :: a', y :: b' => if x =? y then S (common_prefix_len a' b') else 0
  | _, _ => 0
  end.

(** [os.path.relpath(path, start)] for absolute [path] and [start]. *)
Definition relpath (path start : string) : string :=
  let start_list := abs_parts start in
  let path_list := abs_parts path in
  let i := common_prefix_len start_list path_list in
  let rel_list := repeat ".." (length start_list - i) ++ skipn i path_list in
  match rel_list with
  | [] => "."
  | _ => join_with "/" rel_list
  end.

(** Index of the last occurrence of [c] in [l], if any. *)
Fixpoint rfind (c : ascii) (l : list ascii) : option nat :=
  match l with
  | [] => None
  | d :: l' =>
      match rfind c l' with
      | Some i => Some (S i)
      | None => if Ascii.eqb d c then Some 0 else None
      end
  end.

(** [os.path.splitext(p)]: the extension starts at the last dot after the
    last slash, unless only dots precede it in the last component. *)
Definition splitext (p : string) : string * string :=
  let l := chars p in
  let sep_end := match rfind slash l with Some i => S i | None => 0 end in
  match rfind dot l with
  | Some d =>
      if Nat.leb sep_end d then
        if forallb (fun c => Ascii.eqb c dot) (firstn (d - sep_end) (skipn sep_end l))
        then (p, "")
        else (of_chars (firstn d l), of_chars (skipn d l))
      else (p, "")
  | None => (p, "")
  end.

End PosixPath.

(** ** Python runtime values *)

(** A function object: [fn_id] is its qualified name within the module that
    defines it; [fn_builders] are the event builders that telethon's
    [events.register] decorator attached to it (the [_event_builders]
    attribute); [fn_doc] is its [__doc__]. *)
Record pyfunc := PyFunction {
  fn_id : string;
  fn_doc : option string;
  fn_builders : list string
}.

Inductive pyval :=
| PyNone
| PyBool (b : bool)
| PyInt (z : Z)
| PyStr (s : string)
| PyFun (f : pyfunc).

(** Classes. [KantekPlugin] is the class of pluginmgr.py (lines 19-21);
    every other class carries its qualified name (its identity), its bases
    and the final contents of its own namespace. The implicit base
    [object] is left out: it is last in every MRO and declares none of the
    attributes looked up here. *)
Inductive pyclass :=
| KantekPlugin
| PyClass (qualname : string) (bases : list pyclass) (dict : list (string * pyval)).

(** Class identity: [KantekPlugin] is one object; other classes are told
    apart by their qualified names. *)
Definition class_eqb (c d : pyclass) : bool :=
  match c, d with
  | KantekPlugin, KantekPlugin => true
  | PyClass q _ _, PyClass q' _ _ => q =? q'
  | _, _ => false
  end.

(** [KantekPlugin.__dict__]: [name = None], [help = None]. *)
Definition own_dict (c : pyclass) : list (string * pyval) :=
  match c with
  | KantekPlugin => [("name", PyNone); ("help", PyNone)]
  | PyClass _ _ d => d
  end.

Fixpoint assoc {A} (k : string) (l : list (string * A)) : option A :=
  match l with
  | [] => None
  | (k', v) :: l' => if k =? k' then Some v else assoc k l'
  end.

(** ** C3 linearisation ([type.__mro__]) *)

Module MRO.

Definition in_tail (c : pyclass) (s : list pyclass) : bool :=
  existsb (class_eqb c) (tl s).

Definition drop_head (c : pyclass) (s : list pyclass) : list pyclass :=
  match s with
  | d :: s' => if class_eqb c d then s' else s
  | [] => []
  end.

(** The first head of a sequence that occurs in no tail. *)
Fixpoint candidate (all : list (list pyclass)) (seqs : list (list pyclass))
  : option pyclass :=
  match seqs with
  | [] => None
  | (h :: _) :: seqs' =>
      if existsb (in_tail h) all then candidate all seqs' else Some h
  | [] :: seqs' => candidate all seqs'
  end.

Fixpoint merge (fuel : nat) (seqs : list (list pyclass)) : option (list pyclass) :=
  let seqs := filter (fun s => negb (match s with [] => true | _ => false end)) seqs in
  match seqs with
  | [] => Some []
  | _ =>
      match fuel with
      | 0 => None
      | S fuel' =>
          match candidate seqs seqs with
          | None => None
          | Some h =>
              match merge fuel' (map (drop_head h) seqs) with
              | Some rest => Some (h :: rest)
              | None => None
              end
          end
      end
  end.

Definition sum_lengths (seqs : list (list pyclass)) : nat :=
  fold_right (fun s n => length s + n) 0 seqs.

Fixpoint all_some {A} (l : list (option A)) : option (list A) :=
  match l with
  | [] => Some []
  | Some x :: l' => match all_some l' with Some r => Some (x :: r) | None => None end
  | None :: _ => None
  end.

(** [C.__mro__]: [None] when the bases admit no consistent order (Python
    then refuses to create the class, so no loaded class has that). *)
Fixpoint mro (c : pyclass) : option (list pyclass) :=
  match c with
  | KantekPlugin => Some [KantekPlugin]
  | PyClass _ bases _ =>
      match all_some (map mro bases) with
      | Some ms =>
          let seqs := ms ++ [bases] in
          match merge (S (sum_lengths seqs)) seqs with
          | Some l => Some (c :: l)
          | None => None
          end
      | None => None
      end
  end.

End MRO.

(** ** Exceptions and the interpreter monad *)

Inductive exn :=
| SyntaxError      (** raised while compiling a candidate file *)
| ExecError        (** raised by the top-level code of a candidate file *)
| AttributeError
| TypeError
| ValueError.      (** [list.remove] of an absent element *)

Inductive outcome (A : Type) :=
| Ok (a : A)
| Raise (e : exn).
Arguments Ok {A} a.
Arguments Raise {A} e.

Definition obind {A B} (m : outcome A) (f : A -> outcome B) : outcome B :=
  match m with Ok a => f a | Raise e => Raise e end.

Notation "x <-? m ; k" := (obind m (fun x => k))
  (at level 60, m at next level, right associativity).

(** [getattr(cls, a)]: the value of [a] in the first class of the MRO
    whose namespace has it. *)
Definition class_getattr (c : pyclass) (a : string) : outcome pyval :=
  match MRO.mro c with
  | None => Raise TypeError
  | Some l =>
      match find (fun d => match assoc a (own_dict d) with Some _ => true | None => false end) l with
      | Some d => match assoc a (own_dict d) with Some v => Ok v | None => Raise AttributeError end
      | None => Raise AttributeError
      end
  end.

(** [issubclass(c, KantekPlugin)]: [KantekPlugin] occurs in [c.__mro__]. *)
Definition is_kantek_plugin (c : pyclass) : outcome bool :=
  match MRO.mro c with
  | None => Raise TypeError
  | Some l => Ok (existsb (class_eqb KantekPlugin) l)
  end.

(** ** The loaded module: the global namespace left by the top-level code *)

Inductive pyobj :=
| GVal (v : pyval)
| GClass (c : pyclass)
| GOther.          (** modules and other objects that are neither *)

Definition namespace := list (string * pyobj).

(** [getattr(module, n)]. *)
Definition module_getattr (ns : namespace) (n : string) : outcome pyobj :=
  match assoc n ns with Some o => Ok o | None => Raise AttributeError end.

(** [issubclass(obj, KantekPlugin)]: a [TypeError] unless [obj] is a class. *)
Definition issubclass_kantek (o : pyobj) : outcome bool :=
  match o with
  | GClass c => is_kantek_plugin c
  | GVal _ | GOther => Raise TypeError
  end.

(** [getattr(obj, a)] on an object of the module namespace. *)
Definition obj_getattr (o : pyobj) (a : string) : outcome pyval :=
  match o with
  | GClass c => class_getattr c a
  | GVal _ | GOther => Raise AttributeError
  end.

(** ** Syntax trees ([ast]) *)

Inductive expr :=
| EName (id : string)
| EAttribute (value : expr) (attr : string)
| ECall (func : expr) (args : list expr) (keywords : list (option string * expr))
| EConstant (v : pyval)   (** [ast.Constant]; [.s] and [.value] give [v] *)
| EOther.                  (** any other expression: f-strings, lambdas, ... *)

(** Assignment targets: only an [ast.Name] has an [.id]. *)
Inductive target :=
| TName (id : string)
| TOther.

Inductive stmt :=
| SAssign (target0 : target) (value : expr)    (** [item.targets[0]] and [item.value] *)
| SClassDef (name : string) (bases : list expr) (body : list stmt)
| SAsyncFunctionDef (name : string) (decorator_list : list expr)
| SOtherStmt.

(** A candidate file: its syntax tree, [None] when it does not parse, and
    the namespace its top-level code leaves, [None] when that code
    raises. *)
Record srcfile := SrcFile {
  sf_ast : option (list stmt);
  sf_module : option namespace
}.

(** ** The records of pluginmgr.py *)

(** A function object created by one execution of a module: the same
    definition executed by two loads gives two distinct objects, so the
    identity records the load that created it. *)
Record handle := Handle {
  h_load : nat;
  h_fn : pyfunc
}.

(** [@dataclass class Callback] (lines 24-37). *)
Record callback := Callback {
  cb_name : string;
  cb_help : pyval;
  cb_callback : handle;
  cb_private : bool
}.

(** [@dataclass class Plugin] (lines 40-58). *)
Record plugin := Plugin {
  p_name : string;
  p_help : pyval;
  p_callbacks : list callback;
  p_full_path : string;
  p_plugin_path : string;
  p_version : pyval
}.

(** [Plugin.path] (lines 60-66). *)
Definition path (p : plugin) : string :=
  PyStr.replace_char PyStr.backslash PyStr.slash
    (PyStr.rstrip ".py" (PosixPath.relpath (p_full_path p) (p_plugin_path p))).

(** Decidable equality: dataclass [__eq__] compares the fields, functions
    by identity. *)
Definition pyfunc_eq_dec (f g : pyfunc) : {f = g} + {f <> g}.
Proof.
  decide equality; [apply list_eq_dec, string_dec | decide equality; apply string_dec | apply string_dec].
Defined.

Definition pyval_eq_dec (v w : pyval) : {v = w} + {v <> w}.
Proof.
  decide equality; [apply bool_dec | apply Z.eq_dec | apply string_dec | apply pyfunc_eq_dec].
Defined.

Definition handle_eq_dec (h k : handle) : {h = k} + {h <> k}.
Proof. decide equality; [apply pyfunc_eq_dec | apply Nat.eq_dec]. Defined.

Definition callback_eq_dec (c d : callback) : {c = d} + {c <> d}.
Proof.
  decide equality; [apply bool_dec | apply handle_eq_dec | apply pyval_eq_dec | apply string_dec].
Defined.

Definition plugin_eq_dec (p q : plugin) : {p = q} + {p <> q}.
Proof.
  decide equality;
    first [apply pyval_eq_dec | apply string_dec | apply list_eq_dec, callback_eq_dec].
Defined.

(** ** Process state *)

(** [PluginManager.active_plugins] (a class attribute, shared by every
    manager), the host client's handler table (telethon's
    [_event_builders]: one [(event, callback)] pair per event builder of a
    registered function) and the number of module loads so far. *)
Record state := State {
  active_plugins : list plugin;
  event_builders : list (string * handle);
  loads : nat
}.

Definition M (A : Type) := state -> outcome A * state.

Definition ret {A} (a : A) : M A := fun s => (Ok a, s).
Definition throw {A} (e : exn) : M A := fun s => (Raise e, s).
Definition bind {A B} (m : M A) (k : A -> M B) : M B :=
  fun s => match m s with
           | (Ok a, s') => k a s'
           | (Raise e, s') => (Raise e, s')
           end.
Definition lift {A} (o : outcome A) : M A := fun s => (o, s).

Notation "x <- m ;; k" := (bind m (fun x => k))
  (at level 61, m at next level, right associativity).
Notation "m ;;; k" := (bind m (fun _ => k))
  (at level 61, right associativity).

Fixpoint mforeach {A} (f : A -> M unit) (l : list A) : M unit :=
  match l with
  | [] => ret tt
  | x :: l' => f x ;;; mforeach f l'
  end.

(** [client.add_event_handler(callback)]: one pair per event builder. *)
Definition add_event_handler (h : handle) : M unit :=
  fun s => (Ok tt, State (active_plugins s)
                         (event_builders s ++ map (fun ev => (ev, h)) (fn_builders (h_fn h)))
                         (loads s)).

(** [client.remove_event_handler(callback)]: deletes every pair whose
    callback is [h]. *)
Definition remove_event_handler (h : handle) : M unit :=
  fun s => (Ok tt, State (active_plugins s)
                         (filter (fun e => if handle_eq_dec (snd e) h then false else true)
                                 (event_builders s))
                         (loads s)).

(** [list.remove(x)]: removes the first element equal to [x]. *)
Fixpoint remove_first (p : plugin) (l : list plugin) : option (list plugin) :=
  match l with
  | [] => None
  | q :: l' =>
      if plugin_eq_dec q p then Some l'
      else match remove_first p l' with Some r => Some (q :: r) | None => None end
  end.

Definition active_remove (p : plugin) : M unit :=
  fun s => match remove_first p (active_plugins s) with
           | Some l => (Ok tt, State l (event_builders s) (loads s))
           | None => (Raise ValueError, s)
           end.

Definition active_append (p : plugin) : M unit :=
  fun s => (Ok tt, State (active_plugins s ++ [p]) (event_builders s) (loads s)).

(** ** Loading a module ([loader.load_module()]) *)

(** A loaded module: the load that executed it and its namespace. *)
Record module := Module_ {
  m_id : nat;
  m_ns : namespace
}.

(** Compiles and runs the top-level code of [f] once more. *)
Definition load_module (f : srcfile) : M module :=
  fun s =>
    let s' := State (active_plugins s) (event_builders s) (S (loads s)) in
    match sf_ast f, sf_module f with
    | None, _ => (Raise SyntaxError, s')
    | Some _, None => (Raise ExecError, s')
    | Some _, Some ns => (Ok (Module_ (loads s) ns), s')
    end.

(** [ast.parse(f.read())]. *)
Definition ast_parse (f : srcfile) : outcome (list stmt) :=
  match sf_ast f with Some b => Ok b | None => Raise SyntaxError end.

(** The class filter shared by [_get_plugin_callbacks] and
    [_get_plugin_info]: [not item.name.startswith('_') and item.bases]. *)
Definition candidate_class (name : string) (bases : list expr) : bool :=
  negb (PyStr.startswith name "_") && negb (match bases with [] => true | _ => false end).

(** ** Handler keywords and privacy (lines 189-215) *)

(** The keyword dictionaries: keys are [keyword.arg] ([None] for [**x]),
    values pass the [ast.NameConstant] filter, so they are [None], [True]
    or [False]. *)
Definition kwdict := list (option string * option bool).

Definition okey_eqb (a b : option string) : bool :=
  match a, b with
  | Some x, Some y => x =? y
  | None, None => true
  | _, _ => false
  end.

(** [d[k] = v]: overwrite in place, or append a new key. *)
Fixpoint dict_set (k : option string) (v : option bool) (d : kwdict) : kwdict :=
  match d with
  | [] => [(k, v)]
  | (k', v') :: d' => if okey_eqb k k' then (k', v) :: d' else (k', v') :: dict_set k v d'
  end.

(** [d.update(e)]. *)
Definition dict_update (d e : kwdict) : kwdict :=
  fold_left (fun acc kv => dict_set (fst kv) (snd kv) acc) e d.

(** [d.get(k)]: [None] for a missing key and for a stored [None]. *)
Fixpoint dict_get (k : string) (d : kwdict) : option bool :=
  match d with
  | [] => None
  | (k', v) :: d' => if okey_eqb (Some k) k' then v else dict_get k d'
  end.

(** [isinstance(value, ast.NameConstant)] and [value.value]. *)
Definition name_constant (e : expr) : option (option bool) :=
  match e with
  | EConstant PyNone => Some None
  | EConstant (PyBool b) => Some (Some b)
  | _ => None
  end.

(** [PluginManager.__get_keywords(decorator)]. *)
Definition get_keywords (decorator : expr) : outcome kwdict :=
  match decorator with
  | ECall _ args _ =>
      fold_left
        (fun acc arg =>
           d <-? acc ;
           match arg with
           | ECall _ _ kws =>
               Ok (fold_left
                     (fun d kw => match name_constant (snd kw) with
                                  | Some v => dict_update d [(fst kw, v)]
                                  | None => d
                                  end) kws d)
           | _ => Raise AttributeError        (** [arg.keywords] *)
           end)
        args (Ok [])
  | _ => Raise AttributeError
  end.

(** [decorator.func.value.id]. *)
Definition decorator_func_value_id (decorator : expr) : outcome string :=
  match decorator with
  | ECall (EAttribute (EName id) _) _ _ => Ok id
  | _ => Raise AttributeError
  end.

(** [PluginManager.__get_event_decorator_keywords(func)]. *)
Definition get_event_decorator_keywords (decorator_list : list expr) : outcome kwdict :=
  fold_left
    (fun acc decorator =>
       keywords <-? acc ;
       id <-? decorator_func_value_id decorator ;
       if id =? "events" then
         kw <-? get_keywords decorator ; Ok (dict_update keywords kw)
       else Ok keywords)
    decorator_list (Ok []).

(** [PluginManager.__is_private(keywords)]. *)
Definition is_private (keywords : kwdict) : bool :=
  let incoming := dict_get "incoming" keywords in
  let outgoing := dict_get "outgoing" keywords in
  let is_private := false in
  let is_private := match incoming with Some b => negb b | None => is_private end in
  let is_private := match outgoing with Some b => b | None => is_private end in
  is_private.

(** ** [_get_plugin_callbacks] (lines 146-165) *)

(** [events.is_handler(func)]: the function carries event builders. *)
Definition is_handler (v : pyval) : bool :=
  match v with
  | PyFun f => match fn_builders f with [] => false | _ => true end
  | _ => false
  end.

Definition doc_of (f : pyfunc) : pyval :=
  match fn_doc f with Some d => PyStr d | None => PyNone end.

(** The inner loop over the methods of one plugin class. *)
Fixpoint method_callbacks (m : module) (plugin : pyobj) (cbody : list stmt)
  : outcome (list callback) :=
  match cbody with
  | [] => Ok []
  | SAsyncFunctionDef mname decorators :: rest =>
      func <-? obj_getattr plugin mname ;
      here <-?
        (match func with
         | PyFun f =>
             if is_handler func then
               keywords <-? get_event_decorator_keywords decorators ;
               Ok [Callback mname (doc_of f) (Handle (m_id m) f) (is_private keywords)]
             else Ok []
         | _ => Ok []
         end) ;
      more <-? method_callbacks m plugin rest ;
      Ok (here ++ more)
  | _ :: rest => method_callbacks m plugin rest
  end.

(** The outer loop over the top-level statements. *)
Fixpoint body_callbacks (m : module) (body : list stmt) : outcome (list callback) :=
  match body with
  | [] => Ok []
  | SClassDef cname bases cbody :: rest =>
      here <-?
        (if candidate_class cname bases then
           plugin <-? module_getattr (m_ns m) cname ;
           sub <-? issubclass_kantek plugin ;
           if sub then method_callbacks m plugin cbody else Ok []
         else Ok []) ;
      more <-? body_callbacks m rest ;
      Ok (here ++ more)
  | _ :: rest => body_callbacks m rest
  end.

Definition get_plugin_callbacks (f : srcfile) : M (list callback) :=
  module <- load_module f ;;
  tree <- lift (ast_parse f) ;;
  lift (body_callbacks module tree).

(** ** [_get_plugin_info] (lines 167-187) *)

Record plugin_info := PluginInfo {
  i_version : pyval;
  i_name : pyval;
  i_help : pyval
}.

(** [target.id]. *)
Definition target_id (t : target) : outcome string :=
  match t with TName id => Ok id | TOther => Raise AttributeError end.

(** [item.value.s]. *)
Definition value_s (e : expr) : outcome pyval :=
  match e with EConstant v => Ok v | _ => Raise AttributeError end.

Fixpoint info_loop (ns : namespace) (body : list stmt) (acc : plugin_info)
  : outcome plugin_info :=
  match body with
  | [] => Ok acc
  | SAssign t v :: rest =>
      id <-? target_id t ;
      if id =? "__version__" then
        version <-? value_s v ;
        info_loop ns rest (PluginInfo version (i_name acc) (i_help acc))
      else info_loop ns rest acc
  | SClassDef cname bases _ :: rest =>
      if candidate_class cname bases then
        plugin <-? module_getattr ns cname ;
        sub <-? issubclass_kantek plugin ;
        if sub then
          name <-? obj_getattr plugin "name" ;
          plugin_help <-? obj_getattr plugin "help" ;
          info_loop ns rest (PluginInfo (i_version acc) name plugin_help)
        else info_loop ns rest acc
      else info_loop ns rest acc
  | _ :: rest => info_loop ns rest acc
  end.

Definition get_plugin_info (f : srcfile) : M plugin_info :=
  module <- load_module f ;;
  tree <- lift (ast_parse f) ;;
  lift (info_loop (m_ns module) tree (PluginInfo (PyStr "") (PyStr "") (PyStr ""))).

(** ** The manager *)

(** What the manager reads from the file system: [self.plugin_path], the
    output of [os.walk(self.plugin_path)] as [(root, files)] pairs, and the
    file found at each path. *)
Record env := Env {
  plugin_path : string;
  walk : list (string * list string);
  files : string -> srcfile
}.

(** [_get_plugin_list] (lines 136-144). *)
Definition get_plugin_list (e : env) : list (string * string) :=
  flat_map (fun rf =>
              flat_map (fun file =>
                          let p := PosixPath.join (fst rf) file in
                          let (name, ext) := PosixPath.splitext file in
                          if ext =? ".py" then [(name, p)] else [])
                       (snd rf))
           (walk e).

(** One iteration of the loop of [register_all] (lines 84-97). *)
Definition register_one (e : env) (cand : string * string) : M unit :=
  let (plugin_name, p) := cand in
  info <- get_plugin_info (files e p) ;;
  cbs <- get_plugin_callbacks (files e p) ;;
  mforeach (fun cb => add_event_handler (cb_callback cb)) cbs ;;;
  active_append (Plugin plugin_name (i_help info) cbs p (plugin_path e) (i_version info)).

Definition register_candidates (e : env) (cands : list (string * string)) : M unit :=
  mforeach (register_one e) cands.

(** [register_all] (lines 77-100). *)
Definition register_all (e : env) : M (list plugin) :=
  register_candidates e (get_plugin_list e) ;;;
  (fun s => (Ok (active_plugins s), s)).

(** [unregister_plugin] (lines 117-128). *)
Definition unregister_plugin (p : plugin) : M unit :=
  mforeach (fun cb => remove_event_handler (cb_callback cb)) (p_callbacks p) ;;;
  active_remove p.

(** The [for plugin in self.active_plugins] loop of [unregister_all]
    (lines 110-115): Python's list iterator reads index [i] of the list as
    it is now, and stops once [i] reaches the current length. The body only
    removes elements, so the initial length bounds the iterations. *)
Fixpoint unregister_loop (builtins : bool) (fuel i : nat) : M unit :=
  fun s =>
    match fuel with
    | 0 => (Ok tt, s)
    | S fuel' =>
        match nth_error (active_plugins s) i with
        | None => (Ok tt, s)
        | Some p =>
            if builtins || negb (PyStr.startswith (path p) "builtins/")
            then (unregister_plugin p ;;; unregister_loop builtins fuel' (S i)) s
            else unregister_loop builtins fuel' (S i) s
        end
    end.

(** [unregister_all] (lines 102-115). *)
Definition unregister_all (builtins : bool) : M unit :=
  fun s => unregister_loop builtins (length (active_plugins s)) 0 s.

(** ** The shipped plugin kantek/plugins/ping.py *)

Module PingPlugin.

(** U+1F3D3 (table tennis paddle) in UTF-8. *)
Definition paddle : string :=
  String (ascii_of_nat 240) (String (ascii_of_nat 159)
    (String (ascii_of_nat 143) (String (ascii_of_nat 147) EmptyString))).

(** [Ping.ping] after [@events.register(NewMessage(...))]: one builder. *)
Definition ping_fn : pyfunc :=
  PyFunction "Ping.ping" (Some (String.append "Play ping pong " paddle)) ["NewMessage"].

Definition decorator : expr :=
  ECall (EAttribute (EName "events") "register")
        [ECall (EName "NewMessage") []
               [(Some "outgoing", EConstant (PyBool true)); (Some "pattern", EOther)]]
        [].

(** The syntax tree of ping.py: four imports, then [class Ping]. *)
Definition tree : list stmt :=
  [SOtherStmt; SOtherStmt; SOtherStmt; SOtherStmt;
   SClassDef "Ping" [EName "KantekPlugin"]
     [SAssign (TName "name") (EConstant (PyStr "Ping"));
      SAssign (TName "help") (EConstant (PyStr "Some help message"));
      SAsyncFunctionDef "ping" [decorator]]].

Definition Ping : pyclass :=
  PyClass "Ping" [KantekPlugin]
    [("name", PyStr "Ping"); ("help", PyStr "Some help message"); ("ping", PyFun ping_fn)].

(** The module namespace after its top-level code ran. *)
Definition ns : namespace :=
  [("events", GOther); ("NewMessage", GOther); ("cmd_prefix", GVal (PyStr "."));
   ("KantekPlugin", GClass KantekPlugin); ("Ping", GClass Ping)].

Definition file : srcfile := SrcFile (Some tree) (Some ns).

Definition root : string := "/app/kantek/plugins".

(** A plugin directory holding only ping.py. *)
Definition env_ping : env :=
  Env root [(root, ["ping.py"])] (fun _ => file).

End PingPlugin.

(** ** Further concrete plugin directories *)

Module Scenarios.
Import PingPlugin.

(** The initial process state: no plugin registered, no handler, no load. *)
Definition init : state := State [] [] 0.

(** ping.py's contents saved as happy.py. *)
Definition env_happy : env :=
  Env root [(root, ["happy.py"])] (fun _ => file).

(** ping.py's contents saved as fun/ping.py. *)
Definition env_fun : env :=
  Env root [(root, []); (String.append root "/fun", ["ping.py"])] (fun _ => file).

(** Two plugin files with ping.py's contents. *)
Definition env_two : env :=
  Env root [(root, ["a.py"; "b.py"])] (fun _ => file).

(** A file that does not parse, listed before ping.py. *)
Definition broken : srcfile := SrcFile None None.

Definition env_broken_first : env :=
  Env root [(root, ["broken.py"; "ping.py"])]
      (fun p => if String.eqb p (String.append root "/broken.py") then broken else file).

(** A file whose top-level code raises, listed before ping.py. *)
Definition raising : srcfile := SrcFile (Some [SOtherStmt]) None.

Definition env_raising_first : env :=
  Env root [(root, ["raising.py"; "ping.py"])]
      (fun p => if String.eqb p (String.append root "/raising.py") then raising else file).

(** [class Foo(KantekPlugin): pass], with no [__version__]. *)
Definition Foo : pyclass := PyClass "Foo" [KantekPlugin] [].

Definition foo_file : srcfile :=
  SrcFile (Some [SOtherStmt; SClassDef "Foo" [EName "KantekPlugin"] [SOtherStmt]])
          (Some [("KantekPlugin", GClass KantekPlugin); ("Foo", GClass Foo)]).

(** The state after registering ping.py, and the Plugin registered. *)
Definition ping_state : state := snd (register_all env_ping init).

Definition ping_plugin : plugin :=
  hd (Plugin "" PyNone [] "" "" PyNone) (active_plugins ping_state).

(** A Plugin value that was never registered. *)
Definition ghost : plugin := Plugin "ghost" PyNone [] "/app/kantek/plugins/ghost.py" root (PyStr "").

End Scenarios.

(** [dataclasses.replace(p, name=n)]. *)
Definition renamed (p : plugin) (n : string) : plugin :=
  Plugin n (p_help p) (p_callbacks p) (p_full_path p) (p_plugin_path p) (p_version p).

(** Membership of a function object in a list, by identity. *)
Definition mem_handle (h : handle) (hs : list handle) : bool :=
  existsb (fun k => if handle_eq_dec h k then true else false) hs.

(** ** Vocabulary for the statements about [_get_plugin_info] *)

(** Some class of the MRO of [c] other than [KantekPlugin] has [a] in its
    own namespace. *)
Definition declares (c : pyclass) (a : string) : bool :=
  match MRO.mro c with
  | Some l =>
      existsb (fun d => match d with
                        | KantekPlugin => false
                        | PyClass _ _ dct => match assoc a dct with Some _ => true | None => false end
                        end) l
  | None => false
  end.

(** The file has a top-level assignment to [__version__]. *)
Definition assigns_version (body : list stmt) : bool :=
  existsb (fun st => match st with
                     | SAssign (TName id) _ => id =? "__version__"
                     | _ => false
                     end) body.

(** Top-level assignments bind a plain name, and a literal to
    [__version__]. *)
Definition simple_assign (st : stmt) : Prop :=
  match st with
  | SAssign t v => exists id, t = TName id /\ (id = "__version__" -> exists c, v = EConstant c)
  | _ => True
  end.

(** A candidate class definition is bound, in the loaded module, to a
    class with a consistent MRO. *)
Definition class_bound (ns : namespace) (st : stmt) : Prop :=
  match st with
  | SClassDef cname bases _ =>
      candidate_class cname bases = true ->
      exists c l, assoc cname ns = Some (GClass c) /\ MRO.mro c = Some l
  | _ => True
  end.

(** The classes of the file that [_get_plugin_info] reads metadata from. *)
Fixpoint plugin_classes (ns : namespace) (body : list stmt) : list pyclass :=
  match body with
  | [] => []
  | SClassDef cname bases _ :: rest =>
      (if candidate_class cname bases then
         match assoc cname ns with
         | Some (GClass c) =>
             match is_kantek_plugin c with Ok true => [c] | _ => [] end
         | _ => []
         end
       else []) ++ plugin_classes ns rest
  | _ :: rest => plugin_classes ns rest
  end.

(** ** Vocabulary for the statements about repeated registration *)

(** A function object with the load that created it forgotten. *)
Definition erase_handle (h : handle) : handle := Handle 0 (h_fn h).

Definition erase_cb (cb : callback) : callback :=
  Callback (cb_name cb) (cb_help cb) (erase_handle (cb_callback cb)) (cb_private cb).

Definition erase_plugin (p : plugin) : plugin :=
  Plugin (p_name p) (p_help p) (map erase_cb (p_callbacks p)) (p_full_path p)
         (p_plugin_path p) (p_version p).

Definition erase_entry (e : string * handle) : string * handle :=
  (fst e, erase_handle (snd e)).

(** The pairs [client.add_event_handler] adds for a callback. *)
Definition handler_entries (cb : callback) : list (string * handle) :=
  map (fun ev => (ev, cb_callback cb)) (fn_builders (h_fn (cb_callback cb))).

Definition omap {A B} (g : A -> B) (o : outcome A) : outcome B :=
  match o with Ok a => Ok (g a) | Raise e => Raise e end.

(** The state after one more module load. *)
Definition bump (s : state) : state :=
  State (active_plugins s) (event_builders s) (S (loads s)).

(** What [_get_plugin_info] and [_get_plugin_callbacks] compute from a
    file, the latter for the load numbered [n]. *)
Definition plugin_info_result (f : srcfile) : outcome plugin_info :=
  match sf_ast f, sf_module f with
  | None, _ => Raise SyntaxError
  | Some _, None => Raise ExecError
  | Some t, Some ns => info_loop ns t (PluginInfo (PyStr "") (PyStr "") (PyStr ""))
  end.

Definition plugin_callbacks_result (f : srcfile) (n : nat) : outcome (list callback) :=
  match sf_ast f, sf_module f with
  | None, _ => Raise SyntaxError
  | Some _, None => Raise ExecError
  | Some t, Some ns => body_callbacks (Module_ n ns) t
  end.

(** ** Vocabulary for the further properties *)


(** The elements at even and at odd positions of a list. *)
Fixpoint evens {A} (l : list A) : list A :=
  match l with
  | x :: _ :: r => x :: evens r
  | [x] => [x]
  | [] => []
  end.

Fixpoint odds {A} (l : list A) : list A :=
  match l with
  | _ :: y :: r => y :: odds r
  | _ => []
  end.

(** The handler pairs of the client that do not belong to the callbacks of
    the plugins [ps]. *)
Definition handlers_without (ps : list plugin) (eb : list (string * handle)) :
  list (string * handle) :=
  filter (fun e => negb (mem_handle (snd e) (map cb_callback (flat_map p_callbacks ps)))) eb.

(** The bodies of the loops of [__get_keywords] and
    [__get_event_decorator_keywords]. *)
Definition keyword_step (d : kwdict) (kw : option string * expr) : kwdict :=
  match name_constant (snd kw) with
  | Some v => dict_update d [(fst kw, v)]
  | None => d
  end.

Definition keywords_arg_step (acc : outcome kwdict) (arg : expr) : outcome kwdict :=
  d <-? acc ;
  match arg with
  | ECall _ _ kws => Ok (fold_left keyword_step kws d)
  | _ => Raise AttributeError
  end.

Definition decorator_step (acc : outcome kwdict) (decorator : expr) : outcome kwdict :=
  keywords <-? acc ;
  id <-? decorator_func_value_id decorator ;
  if id =? "events" then
    kw <-? get_keywords decorator ; Ok (dict_update keywords kw)
  else Ok keywords.

(** A callback built from one of the async methods [cbody] of a class, by
    the load numbered [n]. *)
Definition method_callback (n : nat) (cbody : list stmt) (cb : callback) : Prop :=
  exists decs kw,
    In (SAsyncFunctionDef (cb_name cb) decs) cbody /\
    h_load (cb_callback cb) = n /\
    fn_builders (h_fn (cb_callback cb)) <> [] /\
    cb_help cb = doc_of (h_fn (cb_callback cb)) /\
    get_event_decorator_keywords decs = Ok kw /\
    cb_private cb = is_private kw.

(** ** A file with two plugin classes *)

Module TwoClasses.

Definition A : pyclass := PyClass "A" [KantekPlugin] [("name", PyStr "a")].
Definition B : pyclass := PyClass "B" [KantekPlugin] [("name", PyStr "b"); ("help", PyStr "hb")].

Definition ns : namespace :=
  [("KantekPlugin", GClass KantekPlugin); ("A", GClass A); ("B", GClass B)].

(** [__version__ = '1'], [class A(KantekPlugin)], [__version__ = '2'],
    [class B(KantekPlugin)]. *)
Definition tree : list stmt :=
  [SAssign (TName "__version__") (EConstant (PyStr "1"));
   SClassDef "A" [EName "KantekPlugin"] [];
   SAssign (TName "__version__") (EConstant (PyStr "2"));
   SClassDef "B" [EName "KantekPlugin"] []].

Definition file : srcfile := SrcFile (Some tree) (Some ns).

End TwoClasses.

(** * Properties *)

(** ** Helper lemmas *)

Lemma filter_filter_and {A} (f g : A -> bool) (l : list A) :
  filter g (filter f l) = filter (fun x => f x && g x) l.
Proof.
  induction l as [|x l IH]; cbn; [reflexivity|].
  destruct (f x); cbn; [destruct (g x)|]; rewrite IH; reflexivity.
Qed.

Lemma filter_all_true {A} (f : A -> bool) (l : list A) :
  (forall x, f x = true) -> filter f l = l.
Proof.
  intros H; induction l as [|x l IH]; cbn; [reflexivity|]. now rewrite H, IH.
Qed.

Lemma remove_handlers_eq (cbs : list callback) (s : state) :
  mforeach (fun cb => remove_event_handler (cb_callback cb)) cbs s =
  (Ok tt, State (active_plugins s)
                (filter (fun e => negb (mem_handle (snd e) (map cb_callback cbs)))
                        (event_builders s))
                (loads s)).
Proof.
  revert s; induction cbs as [|cb cbs IH]; intros s.
  - destruct s as [a t n]; cbn [map mforeach ret active_plugins event_builders loads].
    rewrite filter_all_true by reflexivity; reflexivity.
  - cbn [mforeach]. unfold bind at 1. cbn [remove_event_handler].
    rewrite IH; cbn. f_equal. f_equal.
    rewrite filter_filter_and. apply filter_ext. intros [ev h]; cbn.
    destruct (handle_eq_dec h (cb_callback cb)); reflexivity.
Qed.

Lemma remove_first_none (p : plugin) (l : list plugin) :
  remove_first p l = None <-> ~ In p l.
Proof.
  induction l as [|q l IH]; cbn.
  - tauto.
  - destruct (plugin_eq_dec q p) as [->|Hne].
    + split; [discriminate | tauto].
    + destruct (remove_first p l) eqn:E; split; intro H.
      * discriminate.
      * exfalso; apply H; right.
        destruct (in_dec plugin_eq_dec p l) as [Hin|Hnin]; [exact Hin|].
        apply IH in Hnin; discriminate.
      * intros [Heq|Hin]; [congruence | exact (proj1 IH eq_refl Hin)].
      * reflexivity.
Qed.

Lemma mem_handle_In (h : handle) (hs : list handle) :
  mem_handle h hs = true <-> In h hs.
Proof.
  unfold mem_handle; rewrite existsb_exists; split.
  - intros (k & Hin & Hk). destruct (handle_eq_dec h k); [subst; exact Hin | discriminate].
  - intros Hin. exists h; split; [exact Hin|]. destruct (handle_eq_dec h h); congruence.
Qed.

Lemma unregister_plugin_absent_eq (p : plugin) (s : state) :
  ~ In p (active_plugins s) ->
  unregister_plugin p s =
  (Raise ValueError,
   State (active_plugins s)
         (filter (fun e => negb (mem_handle (snd e) (map cb_callback (p_callbacks p))))
                 (event_builders s))
         (loads s)).
Proof.
  intros Hnin. unfold unregister_plugin, bind. rewrite remove_handlers_eq.
  unfold active_remove; cbn [active_plugins event_builders loads].
  apply remove_first_none in Hnin. rewrite Hnin. reflexivity.
Qed.

(** ** C1: the relative path of a plugin *)

(** C1. [Plugin.path] is meant to be the file's path relative to the plugin
    folder with the extension stripped. It is for <root>/fun/ping.py
    ("fun/ping"), but [rstrip('.py')] strips every trailing '.', 'p' and
    'y', so the plugin registered for <root>/happy.py gets the path "ha". *)
Theorem path_rstrip_strips_stem :
  map path (active_plugins (snd (register_all Scenarios.env_fun Scenarios.init))) = ["fun/ping"] /\
  map p_full_path (active_plugins (snd (register_all Scenarios.env_happy Scenarios.init)))
    = ["/app/kantek/plugins/happy.py"] /\
  map path (active_plugins (snd (register_all Scenarios.env_happy Scenarios.init))) = ["ha"].
Proof. vm_compute. repeat split. Qed.

(** ** C2: the privacy classification *)

(** C2. [__is_private] computes [private] as: [false]; then [not incoming]
    when an [incoming] flag is present; then [outgoing] when an [outgoing]
    flag is present. Hence [outgoing=True] gives [True] whatever [incoming]
    is, [incoming=False] without [outgoing] gives [True], and neither flag
    gives [False]. *)
Theorem is_private_spec (keywords : kwdict) :
  is_private keywords =
    match dict_get "outgoing" keywords with
    | Some o => o
    | None => match dict_get "incoming" keywords with
              | Some i => negb i
              | None => false
              end
    end /\
  (dict_get "outgoing" keywords = Some true -> is_private keywords = true) /\
  (dict_get "incoming" keywords = Some false -> dict_get "outgoing" keywords = None ->
   is_private keywords = true) /\
  (dict_get "incoming" keywords = None -> dict_get "outgoing" keywords = None ->
   is_private keywords = false).
Proof.
  unfold is_private.
  destruct (dict_get "outgoing" keywords) as [o|], (dict_get "incoming" keywords) as [i|];
    repeat split; intros; try discriminate;
    repeat match goal with H : Some _ = Some _ |- _ => injection H as H; subst end;
    reflexivity.
Qed.

(** ** C3: the shipped ping plugin *)

(** C3 (counterexample). The plugin registered for plugins/ping.py is not
    named 'Ping': [register_all] names a plugin after its file. *)
Lemma register_all_ping_not_named_Ping :
  ~ (exists P c,
        fst (register_all PingPlugin.env_ping Scenarios.init) = Ok [P] /\
        path P = "ping" /\ p_name P = "Ping" /\
        p_callbacks P = [c] /\ cb_name c = "ping" /\ cb_private c = true).
Proof.
  intros (P & c & H & _ & Hn & _).
  vm_compute in H. injection H as <-. vm_compute in Hn. discriminate.
Qed.

(** C3 (amended). From any registry state, [register_all] over a plugin
    folder holding only ping.py appends exactly one Plugin, with relative
    path 'ping', name 'ping' (the file name without extension, as
    [Plugin.name] documents), help 'Some help message' and exactly one
    Callback, named 'ping' and private, whose function is added to the
    client once. *)
Theorem register_all_ping (s : state) :
  exists P c,
    register_all PingPlugin.env_ping s =
      (Ok (active_plugins s ++ [P]),
       State (active_plugins s ++ [P])
             (event_builders s ++ [("NewMessage", cb_callback c)])
             (S (S (loads s)))) /\
    path P = "ping" /\ p_name P = "ping" /\ p_help P = PyStr "Some help message" /\
    p_callbacks P = [c] /\ cb_name c = "ping" /\ cb_private c = true.
Proof.
  do 2 eexists. split; [destruct s; reflexivity|].
  repeat split; vm_compute; reflexivity.
Qed.

(** ** C4: unregistering everything *)

(** C4 (code bug). [unregister_all(True)] iterates [self.active_plugins]
    while [unregister_plugin] removes from it, so the iterator skips the
    plugin that moves into the freed slot: after registering a.py and b.py,
    the plugin of b.py and its handler stay registered. *)
Theorem unregister_all_skips_every_other :
  let s1 := snd (register_all Scenarios.env_two Scenarios.init) in
  let s2 := snd (unregister_all true s1) in
  map path (active_plugins s1) = ["a"; "b"] /\
  length (event_builders s1) = 2 /\
  fst (unregister_all true s1) = Ok tt /\
  map path (active_plugins s2) = ["b"] /\
  length (event_builders s2) = 1.
Proof. vm_compute. repeat split. Qed.

(** ** C7 and C10: unregistering an absent plugin *)

(** C7. [unregister_plugin] of a Plugin absent from the active list fails
    with [ValueError] (the not-found condition of [list.remove]) and leaves
    the active list as it was. *)
Theorem unregister_plugin_absent_fails (p : plugin) (s : state) :
  ~ In p (active_plugins s) ->
  fst (unregister_plugin p s) = Raise ValueError /\
  active_plugins (snd (unregister_plugin p s)) = active_plugins s.
Proof.
  intros Hnin. rewrite (unregister_plugin_absent_eq p s Hnin). split; reflexivity.
Qed.

(** C10. When [unregister_plugin] fails on an absent Plugin, the handlers
    of all of its callbacks have already been removed from the client: the
    active list is unchanged, [ValueError] is raised, and the handler table
    has lost exactly the entries of the plugin's functions. *)
Theorem unregister_plugin_absent_not_atomic (p : plugin) (s : state) :
  ~ In p (active_plugins s) ->
  exists s',
    unregister_plugin p s = (Raise ValueError, s') /\
    active_plugins s' = active_plugins s /\
    (forall ev h, In (ev, h) (event_builders s') <->
                  In (ev, h) (event_builders s) /\ ~ In h (map cb_callback (p_callbacks p))).
Proof.
  intros Hnin. rewrite (unregister_plugin_absent_eq p s Hnin).
  eexists; split; [reflexivity|]. split; [reflexivity|].
  intros ev h; cbn [event_builders]. rewrite filter_In; cbn [snd].
  rewrite <- mem_handle_In. destruct (mem_handle h _); cbn; intuition congruence.
Qed.

(** ** C8: handlers and active plugins *)

(** C8 (code bug). After [register_all] over ping.py, calling
    [unregister_plugin] with a renamed copy of the registered Plugin raises
    [ValueError] but has already removed the shared handler: the Plugin of
    ping.py stays active while the client has no handler for its callback. *)
Theorem unregister_plugin_orphans_callback :
  exists P,
    active_plugins (snd (register_all PingPlugin.env_ping Scenarios.init)) = [P] /\
    p_callbacks P <> [] /\
    event_builders (snd (register_all PingPlugin.env_ping Scenarios.init))
      = map (fun c => ("NewMessage", cb_callback c)) (p_callbacks P) /\
    unregister_plugin (renamed P "pong") (snd (register_all PingPlugin.env_ping Scenarios.init))
      = (Raise ValueError, State [P] [] 2).
Proof.
  eexists. split; [vm_compute; reflexivity|].
  split; [vm_compute; discriminate|]. split; vm_compute; reflexivity.
Qed.

(** ** C5: a failing candidate during [register_all] *)

Lemma mforeach_app {A} (f : A -> M unit) (l1 l2 : list A) (s : state) :
  mforeach f (l1 ++ l2) s = bind (mforeach f l1) (fun _ => mforeach f l2) s.
Proof.
  revert s; induction l1 as [|x l1 IH]; intros s; cbn [app mforeach].
  - reflexivity.
  - unfold bind. destruct (f x s) as [[[]|ex] s']; [apply IH | reflexivity].
Qed.

(** A candidate that does not compile or whose top-level code raises makes
    its iteration raise at its first load. *)
Lemma register_one_unloadable (e : env) (n p : string) (s : state) :
  sf_ast (files e p) = None \/ sf_module (files e p) = None ->
  register_one e (n, p) s =
  (Raise (match sf_ast (files e p) with None => SyntaxError | Some _ => ExecError end),
   State (active_plugins s) (event_builders s) (S (loads s))).
Proof.
  intros Hbad. unfold register_one, get_plugin_info, bind at 1 2, load_module.
  destruct (sf_ast (files e p)) as [t|]; [|reflexivity].
  destruct Hbad as [Hb|Hb]; [discriminate|]. rewrite Hb. reflexivity.
Qed.

(** C5 (counterexample). A file that does not parse, or whose top-level
    code raises, aborts the whole pass: ping.py, listed after it, is not
    registered, and [register_all] raises. *)
Lemma register_all_failing_file_aborts :
  fst (register_all Scenarios.env_broken_first Scenarios.init) = Raise SyntaxError /\
  active_plugins (snd (register_all Scenarios.env_broken_first Scenarios.init)) = [] /\
  fst (register_all Scenarios.env_raising_first Scenarios.init) = Raise ExecError /\
  active_plugins (snd (register_all Scenarios.env_raising_first Scenarios.init)) = [].
Proof. vm_compute. repeat split. Qed.

(** C5 (amended). [register_all] does not catch the error of a candidate
    file that fails to parse or whose top-level code raises: the pass stops
    at that file and raises, the candidates after it are never processed,
    and the plugins and handlers registered for the candidates before it
    stay registered. *)
Theorem register_all_stops_at_unloadable (e : env) (l1 l2 : list (string * string))
    (n p : string) (s : state) :
  get_plugin_list e = l1 ++ (n, p) :: l2 ->
  sf_ast (files e p) = None \/ sf_module (files e p) = None ->
  (exists ex, register_all e s = (Raise ex, snd (register_candidates e (l1 ++ [(n, p)]) s))) /\
  (forall s1, register_candidates e l1 s = (Ok tt, s1) ->
     register_all e s =
     (Raise (match sf_ast (files e p) with None => SyntaxError | Some _ => ExecError end),
      State (active_plugins s1) (event_builders s1) (S (loads s1)))).
Proof.
  intros Hlist Hbad.
  set (err := match sf_ast (files e p) with None => SyntaxError | Some _ => ExecError end).
  assert (Hall : register_all e s =
    match mforeach (register_one e) l1 s with
    | (Ok _, s1) => (Raise err, State (active_plugins s1) (event_builders s1) (S (loads s1)))
    | (Raise ex, s1) => (Raise ex, s1)
    end).
  { unfold register_all, register_candidates. rewrite Hlist.
    unfold bind at 1. rewrite mforeach_app. unfold bind.
    destruct (mforeach (register_one e) l1 s) as [[[]|ex] s1]; [|reflexivity].
    cbn [mforeach]. unfold bind. rewrite (register_one_unloadable e n p s1 Hbad). reflexivity. }
  assert (Hpre : snd (register_candidates e (l1 ++ [(n, p)]) s) =
    match mforeach (register_one e) l1 s with
    | (Ok _, s1) => State (active_plugins s1) (event_builders s1) (S (loads s1))
    | (Raise _, s1) => s1
    end).
  { unfold register_candidates. rewrite mforeach_app. unfold bind.
    destruct (mforeach (register_one e) l1 s) as [[[]|ex] s1]; [|reflexivity].
    cbn [mforeach]. unfold bind. rewrite (register_one_unloadable e n p s1 Hbad). reflexivity. }
  rewrite Hall, Hpre. unfold register_candidates.
  destruct (mforeach (register_one e) l1 s) as [[[]|ex] s1].
  - split; [eexists; reflexivity | intros s1' H; injection H as <-; reflexivity].
  - split; [eexists; reflexivity | intros s1' H; discriminate].
Qed.

(** ** C6: missing metadata *)

(** In an MRO that contains [KantekPlugin], looking up [name] or [help]
    succeeds, and yields [KantekPlugin]'s [None] when no other class of the
    MRO declares it. *)
Lemma class_getattr_name_help (c : pyclass) (l : list pyclass) (a : string) :
  MRO.mro c = Some l ->
  existsb (class_eqb KantekPlugin) l = true ->
  a = "name" \/ a = "help" ->
  exists v, class_getattr c a = Ok v /\ (declares c a = false -> v = PyNone).
Proof.
  intros Hm Hk Ha. unfold class_getattr, declares. rewrite Hm.
  clear Hm. induction l as [|d l IH]; cbn in Hk |- *; [discriminate|].
  destruct d as [|q bs dct]; cbn.
  - destruct Ha as [-> | ->]; cbn; eexists; split; [reflexivity | auto | reflexivity | auto].
  - cbn [own_dict]. destruct (assoc a dct) as [v|] eqn:Ha'.
    + exists v; split; [cbn [own_dict]; rewrite Ha'; reflexivity | cbn; discriminate].
    + cbn in Hk |- *. destruct (IH Hk) as (v & Hv & Hd). exists v; split; [exact Hv | exact Hd].
Qed.

Lemma info_loop_defaults (ns : namespace) (body : list stmt) (acc : plugin_info) :
  Forall simple_assign body -> Forall (class_bound ns) body ->
  exists info,
    info_loop ns body acc = Ok info /\
    (assigns_version body = false -> i_version info = i_version acc) /\
    (Forall (fun c => declares c "name" = false) (plugin_classes ns body) ->
     i_name info = match plugin_classes ns body with [] => i_name acc | _ => PyNone end) /\
    (Forall (fun c => declares c "help" = false) (plugin_classes ns body) ->
     i_help info = match plugin_classes ns body with [] => i_help acc | _ => PyNone end).
Proof.
  revert acc; induction body as [|st body IH]; intros acc Hsa Hcb.
  - exists acc; cbn; repeat split; auto.
  - inversion Hsa as [|? ? Hst Hsa']; subst. inversion Hcb as [|? ? Hct Hcb']; subst.
    destruct st as [t v | cname bases cb | mname decs |].
    + destruct Hst as (id & -> & Hv). cbn [info_loop target_id obind assigns_version existsb
                                             plugin_classes].
      destruct (id =? "__version__") eqn:E.
      * apply String.eqb_eq in E. destruct (Hv E) as [c ->]. cbn [value_s obind].
        destruct (IH (PluginInfo c (i_name acc) (i_help acc)) Hsa' Hcb') as (info & Hi & _ & Hn & Hh).
        exists info; repeat split; [exact Hi | discriminate | exact Hn | exact Hh].
      * exact (IH acc Hsa' Hcb').
    + cbn [info_loop assigns_version existsb plugin_classes].
      destruct (candidate_class cname bases) eqn:Hc.
      * destruct (Hct Hc) as (c & l & Hns & Hm).
        unfold module_getattr; rewrite Hns; cbn [obind issubclass_kantek].
        destruct (existsb (class_eqb KantekPlugin) l) eqn:Hk.
        -- assert (Hpk : is_kantek_plugin c = Ok true)
             by (unfold is_kantek_plugin; rewrite Hm, Hk; reflexivity).
           rewrite Hpk; cbn [obind obj_getattr].
           destruct (class_getattr_name_help c l "name" Hm Hk (or_introl eq_refl)) as (vn & Hvn & Hdn).
           destruct (class_getattr_name_help c l "help" Hm Hk (or_intror eq_refl)) as (vh & Hvh & Hdh).
           rewrite Hvn, Hvh; cbn [obind].
           destruct (IH (PluginInfo (i_version acc) vn vh) Hsa' Hcb') as (info & Hi & Hv & Hn & Hh).
           exists info; split; [exact Hi|]. split; [exact Hv|]. cbn [app].
           split; intros Hall; inversion Hall as [|? ? Hd Hall']; subst.
           ++ rewrite (Hn Hall'); cbn [i_name]. rewrite (Hdn Hd).
              destruct (plugin_classes ns body); reflexivity.
           ++ rewrite (Hh Hall'); cbn [i_help]. rewrite (Hdh Hd).
              destruct (plugin_classes ns body); reflexivity.
        -- assert (Hpk : is_kantek_plugin c = Ok false)
             by (unfold is_kantek_plugin; rewrite Hm, Hk; reflexivity).
           rewrite Hpk; cbn [obind app]. exact (IH acc Hsa' Hcb').
      * exact (IH acc Hsa' Hcb').
    + exact (IH acc Hsa' Hcb').
    + exact (IH acc Hsa' Hcb').
Qed.

(** C6 (counterexample). [class Foo(KantekPlugin): pass] has neither
    [name] nor [help]; [_get_plugin_info] returns [None] for both (the
    defaults of [KantekPlugin]), not the empty string. *)
Lemma get_plugin_info_missing_name_is_None :
  ~ (exists info s',
        get_plugin_info Scenarios.foo_file Scenarios.init = (Ok info, s') /\
        i_name info = PyStr "" /\ i_help info = PyStr "" /\ i_version info = PyStr "").
Proof.
  intros (info & s' & H & Hn & _). vm_compute in H. injection H as <- _.
  vm_compute in Hn. discriminate.
Qed.

(** C6 (amended). For a file whose top-level assignments bind plain names
    (a literal to [__version__]) and whose candidate classes are bound to
    classes in the loaded module, [_get_plugin_info] does not raise; a
    missing [__version__] gives ''; when no class of the file's plugin
    classes declares [name] (resp. [help]) below [KantekPlugin], the result
    is [None], KantekPlugin's default, or '' when the file has no plugin
    class at all. *)
Theorem get_plugin_info_missing_metadata (f : srcfile) (body : list stmt) (ns : namespace)
    (s : state) :
  sf_ast f = Some body -> sf_module f = Some ns ->
  Forall simple_assign body -> Forall (class_bound ns) body ->
  exists info,
    fst (get_plugin_info f s) = Ok info /\
    (assigns_version body = false -> i_version info = PyStr "") /\
    (Forall (fun c => declares c "name" = false) (plugin_classes ns body) ->
     i_name info = match plugin_classes ns body with [] => PyStr "" | _ => PyNone end) /\
    (Forall (fun c => declares c "help" = false) (plugin_classes ns body) ->
     i_help info = match plugin_classes ns body with [] => PyStr "" | _ => PyNone end).
Proof.
  intros Hast Hmod Hsa Hcb.
  destruct (info_loop_defaults ns body (PluginInfo (PyStr "") (PyStr "") (PyStr "")) Hsa Hcb)
    as (info & Hi & Hv & Hn & Hh).
  exists info. split; [|exact (conj Hv (conj Hn Hh))].
  unfold get_plugin_info, bind, load_module, lift, ast_parse. rewrite Hast, Hmod.
  cbn [m_ns fst]. exact Hi.
Qed.

(** ** C9: registering twice *)

Lemma get_plugin_info_eq (f : srcfile) (s : state) :
  get_plugin_info f s = (plugin_info_result f, bump s).
Proof.
  unfold get_plugin_info, plugin_info_result, bind, load_module, lift, ast_parse.
  destruct (sf_ast f); [destruct (sf_module f)|]; reflexivity.
Qed.

Lemma get_plugin_callbacks_eq (f : srcfile) (s : state) :
  get_plugin_callbacks f s = (plugin_callbacks_result f (loads s), bump s).
Proof.
  unfold get_plugin_callbacks, plugin_callbacks_result, bind, load_module, lift, ast_parse.
  destruct (sf_ast f); [destruct (sf_module f)|]; reflexivity.
Qed.

Lemma add_handlers_eq (cbs : list callback) (s : state) :
  mforeach (fun cb => add_event_handler (cb_callback cb)) cbs s =
  (Ok tt, State (active_plugins s) (event_builders s ++ flat_map handler_entries cbs) (loads s)).
Proof.
  revert s; induction cbs as [|cb cbs IH]; intros s; cbn [mforeach flat_map].
  - destruct s; cbn. rewrite app_nil_r. reflexivity.
  - unfold bind at 1. cbn [add_event_handler]. rewrite IH. cbn.
    rewrite app_assoc. reflexivity.
Qed.

Lemma register_one_eq (e : env) (n p : string) (s : state) :
  register_one e (n, p) s =
  match plugin_info_result (files e p) with
  | Raise ex => (Raise ex, bump s)
  | Ok info =>
      match plugin_callbacks_result (files e p) (S (loads s)) with
      | Raise ex => (Raise ex, bump (bump s))
      | Ok cbs =>
          (Ok tt, State (active_plugins s ++ [Plugin n (i_help info) cbs p (plugin_path e) (i_version info)])
                        (event_builders s ++ flat_map handler_entries cbs)
                        (S (S (loads s))))
      end
  end.
Proof.
  unfold register_one, bind. rewrite get_plugin_info_eq.
  destruct (plugin_info_result (files e p)) as [info|ex]; [|reflexivity].
  rewrite get_plugin_callbacks_eq. cbn [loads bump].
  destruct (plugin_callbacks_result (files e p) (S (loads s))) as [cbs|ex]; [|reflexivity].
  rewrite add_handlers_eq. reflexivity.
Qed.

Lemma omap_erase_bind {A} (o1 o2 : outcome A) (k1 k2 : A -> outcome (list callback)) :
  o1 = o2 ->
  (forall a, omap (map erase_cb) (k1 a) = omap (map erase_cb) (k2 a)) ->
  omap (map erase_cb) (obind o1 k1) = omap (map erase_cb) (obind o2 k2).
Proof. intros <- Hk. destruct o1; cbn; [apply Hk | reflexivity]. Qed.

Lemma omap_erase_app (x1 x2 o1 o2 : outcome (list callback)) :
  omap (map erase_cb) x1 = omap (map erase_cb) x2 ->
  omap (map erase_cb) o1 = omap (map erase_cb) o2 ->
  omap (map erase_cb) (h <-? x1 ; more <-? o1 ; Ok (h ++ more)) =
  omap (map erase_cb) (h <-? x2 ; more <-? o2 ; Ok (h ++ more)).
Proof.
  intros Hx Ho.
  destruct x1 as [h1|e1], x2 as [h2|e2]; cbn in Hx |- *; try discriminate.
  - destruct o1 as [m1|f1], o2 as [m2|f2]; cbn in Ho |- *; try discriminate.
    + injection Hx as Hx. injection Ho as Ho. rewrite !map_app, Hx, Ho. reflexivity.
    + exact Ho.
  - exact Hx.
Qed.

Lemma method_callbacks_erase (m m' : module) (plugin : pyobj) (cbody : list stmt) :
  omap (map erase_cb) (method_callbacks m plugin cbody) =
  omap (map erase_cb) (method_callbacks m' plugin cbody).
Proof.
  induction cbody as [|st rest IH]; [reflexivity|].
  destruct st as [| | mname decs |]; cbn [method_callbacks]; try exact IH.
  apply omap_erase_bind; [reflexivity|]. intros func.
  apply omap_erase_app; [|exact IH].
  destruct func as [| | | | f]; try reflexivity.
  destruct (is_handler (PyFun f)); [|reflexivity].
  destruct (get_event_decorator_keywords decs); reflexivity.
Qed.

Lemma body_callbacks_erase (m m' : module) (body : list stmt) :
  m_ns m = m_ns m' ->
  omap (map erase_cb) (body_callbacks m body) = omap (map erase_cb) (body_callbacks m' body).
Proof.
  intros Hns. induction body as [|st rest IH]; [reflexivity|].
  destruct st as [| cname bases cb | |]; cbn [body_callbacks]; try exact IH.
  apply omap_erase_app; [|exact IH].
  destruct (candidate_class cname bases); [|reflexivity].
  rewrite Hns. apply omap_erase_bind; [reflexivity|]. intros plugin.
  apply omap_erase_bind; [reflexivity|]. intros [|]; [|reflexivity].
  apply method_callbacks_erase.
Qed.

Lemma plugin_callbacks_result_erase (f : srcfile) (n k : nat) :
  omap (map erase_cb) (plugin_callbacks_result f n) =
  omap (map erase_cb) (plugin_callbacks_result f k).
Proof.
  unfold plugin_callbacks_result.
  destruct (sf_ast f); [destruct (sf_module f)|]; try reflexivity.
  apply body_callbacks_erase; reflexivity.
Qed.

Lemma entries_erase (cbs : list callback) :
  map erase_entry (flat_map handler_entries cbs) = flat_map handler_entries (map erase_cb cbs).
Proof.
  induction cbs as [|cb cbs IH]; [reflexivity|].
  cbn [flat_map map]. rewrite map_app, IH. f_equal.
  unfold handler_entries. rewrite map_map. reflexivity.
Qed.

(** Two runs of the same candidates from any two states: same outcome, and
    the plugins and handler pairs they append differ only in the loads that
    created the functions. *)
Lemma register_candidates_sim (e : env) (cands : list (string * string)) (s t : state) :
  fst (register_candidates e cands s) = fst (register_candidates e cands t) /\
  exists A B A' B',
    active_plugins (snd (register_candidates e cands s)) = active_plugins s ++ A /\
    event_builders (snd (register_candidates e cands s)) = event_builders s ++ B /\
    active_plugins (snd (register_candidates e cands t)) = active_plugins t ++ A' /\
    event_builders (snd (register_candidates e cands t)) = event_builders t ++ B' /\
    map erase_plugin A = map erase_plugin A' /\
    map erase_entry B = map erase_entry B'.
Proof.
  unfold register_candidates.
  revert s t; induction cands as [|[n p] cands IH]; intros s t; cbn [mforeach].
  - split; [reflexivity|]. exists [], [], [], [].
    rewrite !app_nil_r. repeat split; reflexivity.
  - unfold bind. rewrite !register_one_eq.
    destruct (plugin_info_result (files e p)) as [info|ex].
    2:{ split; [reflexivity|]. exists [], [], [], []. rewrite !app_nil_r. repeat split; reflexivity. }
    pose proof (plugin_callbacks_result_erase (files e p) (S (loads s)) (S (loads t))) as Her.
    destruct (plugin_callbacks_result (files e p) (S (loads s))) as [cbs|ex],
             (plugin_callbacks_result (files e p) (S (loads t))) as [cbs'|ex'];
      cbn in Her; try discriminate.
    + injection Her as Her.
      destruct (IH (State (active_plugins s ++ [Plugin n (i_help info) cbs p (plugin_path e) (i_version info)])
                          (event_builders s ++ flat_map handler_entries cbs) (S (S (loads s))))
                   (State (active_plugins t ++ [Plugin n (i_help info) cbs' p (plugin_path e) (i_version info)])
                          (event_builders t ++ flat_map handler_entries cbs') (S (S (loads t)))))
        as [Hfst (A & B & A' & B' & HA & HB & HA' & HB' & HeA & HeB)].
      split; [exact Hfst|].
      cbn [active_plugins event_builders] in HA, HB, HA', HB'.
      exists (Plugin n (i_help info) cbs p (plugin_path e) (i_version info) :: A),
             (flat_map handler_entries cbs ++ B),
             (Plugin n (i_help info) cbs' p (plugin_path e) (i_version info) :: A'),
             (flat_map handler_entries cbs' ++ B').
      rewrite HA, HB, HA', HB', <- !app_assoc. repeat split; try reflexivity.
      * cbn [map]. rewrite HeA. unfold erase_plugin at 1 3; cbn [p_callbacks]. rewrite Her. reflexivity.
      * rewrite !map_app, HeB, !entries_erase, Her. reflexivity.
    + injection Her as <-. split; [reflexivity|]. exists [], [], [], [].
      rewrite !app_nil_r. repeat split; reflexivity.
Qed.

(** A successful pass appends one plugin per candidate, in order. *)
Lemma register_candidates_ok_paths (e : env) (cands : list (string * string)) (s : state) :
  fst (register_candidates e cands s) = Ok tt ->
  exists A, active_plugins (snd (register_candidates e cands s)) = active_plugins s ++ A /\
            map p_full_path A = map snd cands.
Proof.
  unfold register_candidates.
  revert s; induction cands as [|[n p] cands IH]; intros s; cbn [mforeach].
  - intros _. exists []. rewrite app_nil_r. split; reflexivity.
  - unfold bind. rewrite register_one_eq.
    destruct (plugin_info_result (files e p)) as [info|ex]; [|discriminate].
    destruct (plugin_callbacks_result (files e p) (S (loads s))) as [cbs|ex]; [|discriminate].
    intros Hok. destruct (IH _ Hok) as (A & HA & Hp).
    exists (Plugin n (i_help info) cbs p (plugin_path e) (i_version info) :: A).
    rewrite HA. cbn [active_plugins]. rewrite <- app_assoc. split; [reflexivity|].
    cbn [map p_full_path snd]. rewrite Hp. reflexivity.
Qed.

Lemma register_all_ok_inv (e : env) (s : state) (r : list plugin) (s1 : state) :
  register_all e s = (Ok r, s1) ->
  register_candidates e (get_plugin_list e) s = (Ok tt, s1) /\ r = active_plugins s1.
Proof.
  unfold register_all, bind.
  destruct (register_candidates e (get_plugin_list e) s) as [[[]|ex] s'].
  - intros H; injection H as <- <-. split; reflexivity.
  - discriminate.
Qed.

(** C9. [register_all] does not deduplicate: run a second time over the
    same plugin folder, it succeeds again and appends once more one plugin
    per discovered file, equal to the first run's up to the identity of the
    freshly loaded functions, and adds the same handler pairs to the client
    a second time. *)
Theorem register_all_twice_duplicates (e : env) (s : state) (r1 : list plugin) (s1 : state) :
  register_all e s = (Ok r1, s1) ->
  exists r2 s2 A1 A2 B1 B2,
    register_all e s1 = (Ok r2, s2) /\ r2 = active_plugins s2 /\
    active_plugins s1 = active_plugins s ++ A1 /\
    active_plugins s2 = active_plugins s1 ++ A2 /\
    map p_full_path A1 = map snd (get_plugin_list e) /\
    map erase_plugin A2 = map erase_plugin A1 /\
    event_builders s1 = event_builders s ++ B1 /\
    event_builders s2 = event_builders s1 ++ B2 /\
    map erase_entry B2 = map erase_entry B1.
Proof.
  intros H. destruct (register_all_ok_inv e s r1 s1 H) as [Hrc ->].
  set (cands := get_plugin_list e) in *.
  destruct (register_candidates_sim e cands s s1) as [Hfst (A & B & A' & B' & HA & HB & HA' & HB' & HeA & HeB)].
  rewrite Hrc in Hfst, HA, HB. cbn [fst snd] in Hfst, HA, HB.
  destruct (register_candidates e cands s1) as [o2 s2] eqn:E2. cbn [fst snd] in Hfst, HA', HB'.
  subst o2.
  destruct (register_candidates_ok_paths e cands s) as (A0 & HA0 & Hp);
    [rewrite Hrc; reflexivity|].
  rewrite Hrc in HA0; cbn [snd] in HA0. rewrite HA in HA0. apply app_inv_head in HA0. subst A0.
  exists (active_plugins s2), s2, A, A', B, B'.
  repeat split; auto.
  unfold register_all, bind. fold cands. rewrite E2. reflexivity.
Qed.

(** * Witnesses: the theorems with hypotheses at concrete inputs *)

Lemma is_private_spec_witness :
  is_private [(Some "outgoing", Some true); (Some "incoming", Some true)] = true /\
  is_private [(Some "incoming", Some false)] = true /\
  is_private [] = false.
Proof.
  split; [apply (proj1 (proj2 (is_private_spec _))); reflexivity|].
  split; [apply (proj1 (proj2 (proj2 (is_private_spec _)))); reflexivity; reflexivity
         | apply (proj2 (proj2 (proj2 (is_private_spec _)))); reflexivity].
Defined.

Lemma register_all_stops_at_unloadable_witness :
  exists ex,
    register_all Scenarios.env_broken_first Scenarios.init =
    (Raise ex, snd (register_candidates Scenarios.env_broken_first
                      ([] ++ [("broken", "/app/kantek/plugins/broken.py")]) Scenarios.init)).
Proof.
  refine (proj1 (register_all_stops_at_unloadable Scenarios.env_broken_first []
                   [("ping", "/app/kantek/plugins/ping.py")] "broken" "/app/kantek/plugins/broken.py"
                   Scenarios.init _ _)).
  - vm_compute. reflexivity.
  - left. vm_compute. reflexivity.
Defined.

Lemma get_plugin_info_missing_metadata_witness :
  exists info,
    fst (get_plugin_info Scenarios.foo_file Scenarios.init) = Ok info /\
    (assigns_version [SOtherStmt; SClassDef "Foo" [EName "KantekPlugin"] [SOtherStmt]] = false ->
     i_version info = PyStr "") /\
    (Forall (fun c => declares c "name" = false)
       (plugin_classes [("KantekPlugin", GClass KantekPlugin); ("Foo", GClass Scenarios.Foo)]
                       [SOtherStmt; SClassDef "Foo" [EName "KantekPlugin"] [SOtherStmt]]) ->
     i_name info = PyNone) /\
    (Forall (fun c => declares c "help" = false)
       (plugin_classes [("KantekPlugin", GClass KantekPlugin); ("Foo", GClass Scenarios.Foo)]
                       [SOtherStmt; SClassDef "Foo" [EName "KantekPlugin"] [SOtherStmt]]) ->
     i_help info = PyNone).
Proof.
  apply (get_plugin_info_missing_metadata Scenarios.foo_file
           [SOtherStmt; SClassDef "Foo" [EName "KantekPlugin"] [SOtherStmt]]
           [("KantekPlugin", GClass KantekPlugin); ("Foo", GClass Scenarios.Foo)] Scenarios.init).
  - reflexivity.
  - reflexivity.
  - repeat constructor.
  - constructor; [exact I|]. constructor; [|constructor].
    intros _. exists Scenarios.Foo, [Scenarios.Foo; KantekPlugin]. split; vm_compute; reflexivity.
Defined.

Lemma unregister_plugin_absent_fails_witness :
  fst (unregister_plugin Scenarios.ghost Scenarios.ping_state) = Raise ValueError /\
  active_plugins (snd (unregister_plugin Scenarios.ghost Scenarios.ping_state))
    = active_plugins Scenarios.ping_state.
Proof.
  apply unregister_plugin_absent_fails.
  vm_compute. intros [H|[]]. discriminate H.
Defined.

Lemma unregister_plugin_absent_not_atomic_witness :
  exists s',
    unregister_plugin (renamed Scenarios.ping_plugin "pong") Scenarios.ping_state = (Raise ValueError, s') /\
    active_plugins s' = active_plugins Scenarios.ping_state /\
    (forall ev h, In (ev, h) (event_builders s') <->
                  In (ev, h) (event_builders Scenarios.ping_state) /\
                  ~ In h (map cb_callback (p_callbacks (renamed Scenarios.ping_plugin "pong")))).
Proof.
  apply unregister_plugin_absent_not_atomic.
  vm_compute. intros [H|[]]. discriminate H.
Defined.

Lemma register_all_twice_duplicates_witness :
  exists r2 s2 A1 A2 B1 B2,
    register_all Scenarios.env_two (snd (register_all Scenarios.env_two Scenarios.init)) = (Ok r2, s2) /\
    r2 = active_plugins s2 /\
    active_plugins (snd (register_all Scenarios.env_two Scenarios.init)) = active_plugins Scenarios.init ++ A1 /\
    active_plugins s2 = active_plugins (snd (register_all Scenarios.env_two Scenarios.init)) ++ A2 /\
    map p_full_path A1 = map snd (get_plugin_list Scenarios.env_two) /\
    map erase_plugin A2 = map erase_plugin A1 /\
    event_builders (snd (register_all Scenarios.env_two Scenarios.init)) = event_builders Scenarios.init ++ B1 /\
    event_builders s2 = event_builders (snd (register_all Scenarios.env_two Scenarios.init)) ++ B2 /\
    map erase_entry B2 = map erase_entry B1.
Proof.
  apply (register_all_twice_duplicates Scenarios.env_two Scenarios.init
           (active_plugins (snd (register_all Scenarios.env_two Scenarios.init)))).
  vm_compute. reflexivity.
Defined.

(** * Further properties of the plugin manager *)

(** ** Strings and paths *)


Lemma of_chars_app (a b : list ascii) :
  PyStr.of_chars (a ++ b) = String.append (PyStr.of_chars a) (PyStr.of_chars b).
Proof. induction a as [|c a IH]; cbn; [reflexivity | f_equal; exact IH]. Qed.

Lemma chars_of_chars (l : list ascii) : PyStr.chars (PyStr.of_chars l) = l.
Proof. apply list_ascii_of_string_of_list_ascii. Qed.

Lemma of_chars_chars (s : string) : PyStr.of_chars (PyStr.chars s) = s.
Proof. apply string_of_list_ascii_of_string. Qed.

Lemma splitext_concat (p : string) :
  String.append (fst (PosixPath.splitext p)) (snd (PosixPath.splitext p)) = p.
Proof.
  unfold PosixPath.splitext.
  assert (Hnil : String.append p "" = p)
    by (induction p as [|c p IH]; cbn; [reflexivity | now rewrite IH]).
  destruct (PosixPath.rfind PyStr.dot (PyStr.chars p)) as [d|]; [|exact Hnil].
  destruct (Nat.leb _ d); [|exact Hnil].
  destruct (forallb _ _); [exact Hnil|]. cbn [fst snd].
  rewrite <- of_chars_app, firstn_skipn. apply of_chars_chars.
Qed.

Lemma rfind_at (c : ascii) (l : list ascii) (i : nat) :
  PosixPath.rfind c l = Some i -> exists rest, skipn i l = c :: rest.
Proof.
  revert i. induction l as [|d l IH]; intros i Hi; cbn in Hi; [discriminate|].
  destruct (PosixPath.rfind c l) as [j|] eqn:Hj.
  - injection Hi as <-. exact (IH j eq_refl).
  - destruct (Ascii.eqb d c) eqn:Hc; [|discriminate].
    injection Hi as <-. apply Ascii.eqb_eq in Hc. subst. eexists; reflexivity.
Qed.

(** X2. [os.path.splitext] splits a path into two parts that concatenate
    back to it; the extension is empty or starts with a dot. *)
Theorem splitext_roundtrip (p : string) :
  String.append (fst (PosixPath.splitext p)) (snd (PosixPath.splitext p)) = p /\
  (snd (PosixPath.splitext p) = "" \/
   exists rest, PyStr.chars (snd (PosixPath.splitext p)) = PyStr.dot :: rest).
Proof.
  split; [apply splitext_concat|].
  unfold PosixPath.splitext.
  destruct (PosixPath.rfind PyStr.dot (PyStr.chars p)) as [d|] eqn:Hd; [|left; reflexivity].
  destruct (Nat.leb _ d); [|left; reflexivity].
  destruct (forallb _ _); [left; reflexivity|]. cbn [snd].
  right. rewrite chars_of_chars. exact (rfind_at _ _ _ Hd).
Qed.










Lemma drop_in_head (cs l : list ascii) :
  match PyStr.drop_in cs l with c :: _ => PyStr.mem c cs = false | [] => True end.
Proof.
  induction l as [|c l IH]; cbn; [exact I|].
  destruct (PyStr.mem c cs) eqn:Hc; [exact IH | exact Hc].
Qed.

Lemma chars_replace_char (a b : ascii) (s : string) :
  PyStr.chars (PyStr.replace_char a b s) =
  map (fun c => if Ascii.eqb c a then b else c) (PyStr.chars s).
Proof. apply chars_of_chars. Qed.

(** X4. [Plugin.path] never contains a backslash, and never ends in one of
    the characters ['.'], ['p'], ['y'] that [rstrip('.py')] removes. *)
Theorem path_shape (p : plugin) :
  (forall c, In c (PyStr.chars (path p)) -> c <> PyStr.backslash) /\
  match rev (PyStr.chars (path p)) with
  | c :: _ => PyStr.mem c (PyStr.chars ".py") = false
  | [] => True
  end.
Proof.
  unfold path. rewrite chars_replace_char. split.
  - intros c Hc. apply in_map_iff in Hc as [x [<- _]].
    destruct (Ascii.eqb x PyStr.backslash) eqn:Hx; [discriminate|].
    intros ->. now rewrite Ascii.eqb_refl in Hx.
  - unfold PyStr.rstrip. rewrite chars_of_chars, <- map_rev, rev_involutive.
    pose proof (drop_in_head (PyStr.chars ".py")
                  (rev (PyStr.chars (PosixPath.relpath (p_full_path p) (p_plugin_path p))))) as H.
    destruct (PyStr.drop_in _ _) as [|c l]; [exact I|]. cbn [map].
    destruct (Ascii.eqb c PyStr.backslash); [reflexivity | exact H].
Qed.

(** ** The plugin list *)

(** X1. Every candidate [(name, p)] that [_get_plugin_list] yields comes from
    a file [name + '.py'] of a directory [root] that [os.walk] visits, and
    [p] is [os.path.join(root, name + '.py')]. *)
Theorem get_plugin_list_sound (e : env) (n p : string) :
  In (n, p) (get_plugin_list e) ->
  exists root files,
    In (root, files) (walk e) /\ In (String.append n ".py") files /\
    p = PosixPath.join root (String.append n ".py").
Proof.
  unfold get_plugin_list. intros H.
  apply in_flat_map in H as [[root files] [Hw H]].
  apply in_flat_map in H as [file [Hf H]]. cbn [fst snd] in H.
  pose proof (splitext_concat file) as Hrt.
  destruct (PosixPath.splitext file) as [name ext]. cbn [fst snd] in Hrt.
  destruct (ext =? ".py") eqn:Hext; [|destruct H].
  apply String.eqb_eq in Hext. subst ext.
  destruct H as [H|[]]. injection H as <- <-.
  exists root, files. rewrite Hrt. auto.
Qed.

(** ** Registration and unregistration *)

Lemma register_all_state (e : env) (s : state) :
  snd (register_all e s) = snd (register_candidates e (get_plugin_list e) s) /\
  (fst (register_all e s) = Ok (active_plugins (snd (register_all e s))) <->
   fst (register_candidates e (get_plugin_list e) s) = Ok tt).
Proof.
  unfold register_all, bind.
  destruct (register_candidates e (get_plugin_list e) s) as [[[]|ex] s']; cbn.
  - tauto.
  - split; [reflexivity|]. split; discriminate.
Qed.

Lemma register_candidates_prefix (e : env) (cands : list (string * string)) (s : state) :
  exists A,
    active_plugins (snd (register_candidates e cands s)) = active_plugins s ++ A /\
    event_builders (snd (register_candidates e cands s))
      = event_builders s ++ flat_map handler_entries (flat_map p_callbacks A) /\
    map (fun q => (p_name q, p_full_path q)) A = firstn (length A) cands /\
    Forall (fun q => p_plugin_path q = plugin_path e) A /\
    (fst (register_candidates e cands s) = Ok tt <-> length A = length cands).
Proof.
  unfold register_candidates.
  revert s; induction cands as [|[n p] cands IH]; intros s; cbn [mforeach].
  - exists []. rewrite !app_nil_r. repeat split; auto.
  - unfold bind. rewrite register_one_eq.
    destruct (plugin_info_result (files e p)) as [info|ex].
    2:{ exists []. rewrite !app_nil_r. cbn. repeat split; auto; discriminate. }
    destruct (plugin_callbacks_result (files e p) (S (loads s))) as [cbs|ex].
    2:{ exists []. rewrite !app_nil_r. cbn. repeat split; auto; discriminate. }
    destruct (IH (State (active_plugins s ++ [Plugin n (i_help info) cbs p (plugin_path e) (i_version info)])
                        (event_builders s ++ flat_map handler_entries cbs) (S (S (loads s)))))
      as (A & HA & HB & Hn & Hpp & Hok).
    cbn [active_plugins event_builders] in HA, HB.
    exists (Plugin n (i_help info) cbs p (plugin_path e) (i_version info) :: A).
    rewrite HA, HB, <- !app_assoc. cbn [flat_map p_callbacks]. rewrite flat_map_app.
    repeat split; try reflexivity.
    + cbn. now rewrite Hn.
    + now constructor.
    + intros H. cbn. f_equal. now apply Hok.
    + intros H. cbn in H. apply Hok. lia.
Qed.

(** X5. [register_all] appends to [active_plugins], in order, the plugins of
    a prefix of the candidate files ([name] and [full_path] from
    [_get_plugin_list], [plugin_path] of the manager), and adds to the
    client exactly the handler pairs of their callbacks; the other plugins
    and handlers stay as they were. It returns the new active list when
    the prefix is the whole candidate list, and raises otherwise. *)
Theorem register_all_appends (e : env) (s : state) :
  exists A,
    active_plugins (snd (register_all e s)) = active_plugins s ++ A /\
    event_builders (snd (register_all e s))
      = event_builders s ++ flat_map handler_entries (flat_map p_callbacks A) /\
    map (fun q => (p_name q, p_full_path q)) A = firstn (length A) (get_plugin_list e) /\
    Forall (fun q => p_plugin_path q = plugin_path e) A /\
    (fst (register_all e s) = Ok (active_plugins (snd (register_all e s))) <->
     length A = length (get_plugin_list e)) /\
    (forall r, fst (register_all e s) = Ok r -> r = active_plugins (snd (register_all e s))).
Proof.
  destruct (register_all_state e s) as [Hst Hok].
  destruct (register_candidates_prefix e (get_plugin_list e) s) as (A & HA & HB & Hn & Hpp & HokA).
  exists A. split; [rewrite Hst; exact HA|]. split; [rewrite Hst; exact HB|].
  repeat split; try assumption.
  - intros H. apply HokA, Hok, H.
  - intros H. apply Hok, HokA, H.
  - intros r Hr. unfold register_all, bind in *.
    destruct (register_candidates e (get_plugin_list e) s) as [[[]|ex] s'];
      cbn in Hr |- *; congruence.
Qed.

Lemma remove_first_split (p : plugin) (l : list plugin) :
  In p l -> exists l1 l2, l = l1 ++ p :: l2 /\ ~ In p l1 /\ remove_first p l = Some (l1 ++ l2).
Proof.
  induction l as [|q l IH]; [intros []|]. intros Hin. cbn [remove_first].
  destruct (plugin_eq_dec q p) as [->|Hne].
  - exists [], l. repeat split; auto.
  - destruct Hin as [->|Hin]; [congruence|].
    destruct (IH Hin) as (l1 & l2 & -> & Hn1 & ->).
    exists (q :: l1), l2. repeat split; auto.
    intros [->|H]; [congruence | exact (Hn1 H)].
Qed.



Lemma unregister_plugin_present_eq (p : plugin) (s : state) (r : list plugin) :
  remove_first p (active_plugins s) = Some r ->
  unregister_plugin p s =
  (Ok tt, State r (handlers_without [p] (event_builders s)) (loads s)).
Proof.
  intros Hr. unfold unregister_plugin, bind. rewrite remove_handlers_eq.
  unfold active_remove; cbn [active_plugins event_builders loads]. rewrite Hr.
  unfold handlers_without. cbn [flat_map]. rewrite app_nil_r. reflexivity.
Qed.

(** X6. [unregister_plugin] of an active plugin succeeds: it removes the
    first occurrence of the plugin from [active_plugins] and deletes from
    the client every handler pair whose function is one of the plugin's
    callbacks, and no other pair. *)
Theorem unregister_plugin_active (p : plugin) (s : state) :
  In p (active_plugins s) ->
  exists l1 l2,
    active_plugins s = l1 ++ p :: l2 /\ ~ In p l1 /\
    fst (unregister_plugin p s) = Ok tt /\
    active_plugins (snd (unregister_plugin p s)) = l1 ++ l2 /\
    (forall ev h, In (ev, h) (event_builders (snd (unregister_plugin p s))) <->
                  In (ev, h) (event_builders s) /\ ~ In h (map cb_callback (p_callbacks p))).
Proof.
  intros Hin. destruct (remove_first_split p _ Hin) as (l1 & l2 & Hl & Hn1 & Hr).
  exists l1, l2. rewrite (unregister_plugin_present_eq p s _ Hr).
  cbn [fst snd active_plugins event_builders].
  split; [exact Hl|]. split; [exact Hn1|]. split; [reflexivity|]. split; [reflexivity|].
  intros ev h. unfold handlers_without. cbn [flat_map]. rewrite app_nil_r, filter_In.
  cbn [snd]. rewrite <- mem_handle_In.
  destruct (mem_handle h _); cbn; intuition congruence.
Qed.

Lemma unregister_loop_past_end (b : bool) (fuel i : nat) (s : state) :
  length (active_plugins s) <= i -> unregister_loop b fuel i s = (Ok tt, s).
Proof.
  intros H. destruct fuel; cbn; [reflexivity|].
  rewrite (proj2 (nth_error_None _ _) H). reflexivity.
Qed.



Lemma handlers_without_nil (eb : list (string * handle)) : handlers_without [] eb = eb.
Proof. unfold handlers_without. apply filter_all_true. reflexivity. Qed.

Lemma handlers_without_app (A B : list plugin) (eb : list (string * handle)) :
  handlers_without B (handlers_without A eb) = handlers_without (A ++ B) eb.
Proof.
  unfold handlers_without. rewrite filter_filter_and. apply filter_ext.
  intros [ev h]. cbn [snd]. rewrite flat_map_app, map_app.
  unfold mem_handle. rewrite existsb_app, negb_orb. reflexivity.
Qed.

Lemma remove_first_app_notin (x : plugin) (kept r : list plugin) :
  ~ In x kept -> remove_first x (kept ++ x :: r) = Some (kept ++ r).
Proof.
  induction kept as [|q kept IH]; intros Hn; cbn [app remove_first].
  - destruct (plugin_eq_dec x x); congruence.
  - destruct (plugin_eq_dec q x) as [->|Hq]; [exfalso; apply Hn; left; reflexivity|].
    rewrite IH; [reflexivity|]. intros H; apply Hn; right; exact H.
Qed.

Lemma nth_error_at_length {A} (kept rest : list A) (x : A) :
  nth_error (kept ++ x :: rest) (length kept) = Some x.
Proof. rewrite nth_error_app2, Nat.sub_diag by lia. reflexivity. Qed.

Lemma unregister_loop_true (fuel : nat) (kept rest : list plugin) (s : state) :
  active_plugins s = kept ++ rest -> NoDup (kept ++ rest) -> length rest <= 2 * fuel ->
  unregister_loop true fuel (length kept) s =
  (Ok tt, State (kept ++ odds rest) (handlers_without (evens rest) (event_builders s)) (loads s)).
Proof.
  revert kept rest s; induction fuel as [|fuel IH]; intros kept rest s Ha Hnd Hlen.
  - destruct rest; [|cbn in Hlen; lia]. cbn. rewrite handlers_without_nil, app_nil_r.
    destruct s; cbn in *. rewrite app_nil_r in Ha. congruence.
  - destruct rest as [|x [|y r]].
    + rewrite unregister_loop_past_end by (rewrite Ha, app_nil_r; lia).
      cbn [odds evens]. rewrite handlers_without_nil, app_nil_r.
      destruct s; cbn in *. rewrite app_nil_r in Ha. congruence.
    + cbn [unregister_loop]. rewrite Ha, nth_error_at_length. cbn [orb].
      unfold bind. assert (Hx : ~ In x kept)
        by (intros H; apply (NoDup_remove_2 _ _ _ Hnd), in_or_app; left; exact H).
      rewrite (unregister_plugin_present_eq x s kept) by (rewrite Ha, remove_first_app_notin, app_nil_r by exact Hx; reflexivity).
      rewrite unregister_loop_past_end by (cbn; lia). cbn [odds evens]. rewrite app_nil_r. reflexivity.
    + cbn [unregister_loop]. rewrite Ha, nth_error_at_length. cbn [orb].
      unfold bind. assert (Hx : ~ In x kept)
        by (intros H; apply (NoDup_remove_2 _ _ _ Hnd), in_or_app; left; exact H).
      rewrite (unregister_plugin_present_eq x s (kept ++ y :: r))
        by (rewrite Ha; exact (remove_first_app_notin x kept (y :: r) Hx)).
      replace (S (length kept)) with (length (kept ++ [y])) by (rewrite length_app; cbn; lia).
      rewrite (IH (kept ++ [y]) r).
      * cbn [odds evens event_builders loads]. rewrite handlers_without_app, <- app_assoc. reflexivity.
      * cbn. now rewrite <- app_assoc.
      * rewrite <- app_assoc. exact (NoDup_remove_1 _ _ _ Hnd).
      * cbn in Hlen. lia.
Qed.

(** X8. [unregister_all(True)] over an active list without duplicates
    unregisters exactly the plugins at even positions (0, 2, ...): the
    plugins at odd positions stay active, in order, and the client loses
    exactly the handler pairs of the unregistered plugins' callbacks. *)
Theorem unregister_all_true_keeps_odds (s : state) :
  NoDup (active_plugins s) ->
  unregister_all true s =
  (Ok tt, State (odds (active_plugins s))
                (handlers_without (evens (active_plugins s)) (event_builders s))
                (loads s)).
Proof.
  intros Hnd. unfold unregister_all.
  apply (unregister_loop_true _ [] (active_plugins s) s); [reflexivity | exact Hnd | lia].
Qed.

(** ** Decorator introspection *)

Lemma fold_left_raise {A} (f : outcome kwdict -> A -> outcome kwdict) (l : list A) (ex : exn) :
  (forall a, f (Raise ex) a = Raise ex) -> fold_left f l (Raise ex) = Raise ex.
Proof. intros Hf. induction l as [|a l IH]; cbn; [reflexivity|]. now rewrite Hf. Qed.

Lemma get_keywords_fold (f : expr) (args : list expr) (kws : list (option string * expr)) :
  get_keywords (ECall f args kws) = fold_left keywords_arg_step args (Ok []).
Proof. reflexivity. Qed.

Lemma keywords_fold_errors (args : list expr) (acc : outcome kwdict) :
  match acc with Ok _ => True | Raise ex => ex = AttributeError end ->
  match fold_left keywords_arg_step args acc with Ok _ => True | Raise ex => ex = AttributeError end.
Proof.
  revert acc; induction args as [|a args IH]; intros acc Hacc; cbn; [exact Hacc|].
  apply IH. destruct acc as [d|ex]; cbn; [|exact Hacc].
  destruct a; cbn; trivial.
Qed.


Lemma get_event_decorator_keywords_fold (ds : list expr) :
  get_event_decorator_keywords ds = fold_left decorator_step ds (Ok []).
Proof. reflexivity. Qed.



(** X10. A decorator of the shape [name.attr(...)] whose [name] is not
    [events] contributes nothing: [__get_event_decorator_keywords] gives the
    same result with that decorator removed from the list. *)
Theorem event_decorator_keywords_skip_other (l1 l2 : list expr) (d : expr) (id : string) :
  decorator_func_value_id d = Ok id -> id <> "events" ->
  get_event_decorator_keywords (l1 ++ d :: l2) = get_event_decorator_keywords (l1 ++ l2).
Proof.
  intros Hd Hid. rewrite !get_event_decorator_keywords_fold, !fold_left_app. cbn [fold_left].
  f_equal. destruct (fold_left decorator_step l1 (Ok [])) as [k|ex]; cbn; [|reflexivity].
  rewrite Hd; cbn. apply String.eqb_neq in Hid. now rewrite Hid.
Qed.

(** X11. [__get_keywords] reads [arg.keywords] of every positional argument
    of the decorator call: an argument that is not a call, such as
    [events.register(events.NewMessage)], makes it raise [AttributeError]. *)
Theorem get_keywords_non_call_arg (f : expr) (args : list expr)
  (kws : list (option string * expr)) (a : expr) :
  In a args -> (forall g x y, a <> ECall g x y) ->
  get_keywords (ECall f args kws) = Raise AttributeError.
Proof.
  intros Hin Ha. apply in_split in Hin as (l1 & l2 & ->).
  rewrite get_keywords_fold, fold_left_app. cbn [fold_left].
  pose proof (keywords_fold_errors l1 (Ok []) I) as H1.
  assert (Hs : keywords_arg_step (fold_left keywords_arg_step l1 (Ok [])) a = Raise AttributeError).
  { destruct (fold_left keywords_arg_step l1 (Ok [])) as [k|ex]; cbn; [|now subst ex].
    destruct a; try reflexivity. exfalso; eapply Ha; reflexivity. }
  rewrite Hs. apply fold_left_raise. reflexivity.
Qed.

Lemma okey_eqb_eq (a b : option string) : okey_eqb a b = true <-> a = b.
Proof.
  destruct a as [x|], b as [y|]; cbn; try (split; congruence).
  rewrite String.eqb_eq. split; congruence.
Qed.

Lemma dict_get_set (k : string) (k' : option string) (v : option bool) (d : kwdict) :
  dict_get k (dict_set k' v d) = if okey_eqb (Some k) k' then v else dict_get k d.
Proof.
  induction d as [|[k'' v''] d IH]; cbn [dict_set].
  - cbn [dict_get]. destruct (okey_eqb (Some k) k'); reflexivity.
  - destruct (okey_eqb k' k'') eqn:E.
    + apply okey_eqb_eq in E. subst k''. cbn [dict_get]. destruct (okey_eqb (Some k) k'); reflexivity.
    + cbn [dict_get]. rewrite IH.
      destruct (okey_eqb (Some k) k'') eqn:E1, (okey_eqb (Some k) k') eqn:E2; try reflexivity.
      apply okey_eqb_eq in E1, E2. subst. rewrite (proj2 (okey_eqb_eq _ _) eq_refl) in E. discriminate.
Qed.

Lemma keyword_step_get (k : string) (d : kwdict) (kw : option string * expr) :
  dict_get k (keyword_step d kw) =
  if okey_eqb (Some k) (fst kw) then
    match name_constant (snd kw) with Some v => v | None => dict_get k d end
  else dict_get k d.
Proof.
  unfold keyword_step. destruct (name_constant (snd kw)) as [v|].
  - cbn [dict_update fold_left fst snd]. apply dict_get_set.
  - destruct (okey_eqb _ _); reflexivity.
Qed.

Lemma keyword_fold_other (k : string) (kws : list (option string * expr)) (d : kwdict) :
  Forall (fun kw => fst kw = Some k -> name_constant (snd kw) = None) kws ->
  dict_get k (fold_left keyword_step kws d) = dict_get k d.
Proof.
  revert d; induction kws as [|kw kws IH]; intros d Hf; cbn; [reflexivity|].
  inversion Hf as [|? ? Hkw Hrest]; subst. rewrite IH by exact Hrest.
  rewrite keyword_step_get. destruct (okey_eqb (Some k) (fst kw)) eqn:E; [|reflexivity].
  apply okey_eqb_eq in E. rewrite Hkw by (symmetry; exact E). reflexivity.
Qed.

(** X12. For a handler decorator [events.register(Builder(..., k=v, ...))],
    the value [__get_keywords] records for the keyword [k] is that of the
    last [k=...] whose value is a literal [None], [True] or [False]; later
    [k=...] with any other value (a variable, a call) are skipped. *)
Theorem get_keywords_last_literal (f g : expr) (xs : list expr)
  (kws1 kws2 dk : list (option string * expr)) (k : string) (e : expr) (v : option bool) :
  name_constant e = Some v ->
  Forall (fun kw => fst kw = Some k -> name_constant (snd kw) = None) kws2 ->
  exists d, get_keywords (ECall f [ECall g xs (kws1 ++ (Some k, e) :: kws2)] dk) = Ok d /\
            dict_get k d = v.
Proof.
  intros He Hf. rewrite get_keywords_fold. cbn [fold_left keywords_arg_step obind].
  eexists; split; [reflexivity|].
  rewrite fold_left_app. cbn [fold_left]. rewrite keyword_fold_other by exact Hf.
  rewrite keyword_step_get. cbn [fst snd okey_eqb]. rewrite String.eqb_refl, He. reflexivity.
Qed.

(** X13. A keyword of the event builder that is never given a literal
    [None], [True] or [False] is absent from the dictionary of
    [__get_keywords]: [incoming=x] or [outgoing=f()] count as not given. *)
Theorem get_keywords_no_literal (f g : expr) (xs : list expr)
  (kws dk : list (option string * expr)) (k : string) :
  Forall (fun kw => fst kw = Some k -> name_constant (snd kw) = None) kws ->
  exists d, get_keywords (ECall f [ECall g xs kws] dk) = Ok d /\ dict_get k d = None.
Proof.
  intros Hf. rewrite get_keywords_fold. cbn [fold_left keywords_arg_step obind].
  eexists; split; [reflexivity|]. rewrite keyword_fold_other by exact Hf. reflexivity.
Qed.

(** ** Plugin metadata and callbacks *)

Lemma info_loop_app (ns : namespace) (b1 b2 : list stmt) (acc : plugin_info) :
  info_loop ns (b1 ++ b2) acc = obind (info_loop ns b1 acc) (info_loop ns b2).
Proof.
  revert acc; induction b1 as [|st b1 IH]; intros acc; [reflexivity|].
  cbn [app]. destruct st as [t v | cname bases cb | mname decs |]; cbn [info_loop]; try apply IH.
  - destruct (target_id t) as [id|ex]; cbn [obind]; [|reflexivity].
    destruct (id =? "__version__"); [|apply IH].
    destruct (value_s v); cbn [obind]; [apply IH | reflexivity].
  - destruct (candidate_class cname bases); [|apply IH].
    destruct (module_getattr ns cname) as [o|ex]; cbn [obind]; [|reflexivity].
    destruct (issubclass_kantek o) as [[]|ex]; cbn [obind]; [| apply IH | reflexivity].
    destruct (obj_getattr o "name"); cbn [obind]; [|reflexivity].
    destruct (obj_getattr o "help"); cbn [obind]; [apply IH | reflexivity].
Qed.

Lemma get_plugin_info_fst (f : srcfile) (body : list stmt) (ns : namespace) (s : state) :
  sf_ast f = Some body -> sf_module f = Some ns ->
  fst (get_plugin_info f s) = info_loop ns body (PluginInfo (PyStr "") (PyStr "") (PyStr "")).
Proof.
  intros Hast Hmod. rewrite get_plugin_info_eq. unfold plugin_info_result.
  rewrite Hast, Hmod. reflexivity.
Qed.

(** X14. When several classes of a file are plugin classes,
    [_get_plugin_info] reports the [name] and [help] of the last one: a
    plugin class followed only by statements that bind plain names and
    classes that are not plugin classes determines both. *)
Theorem get_plugin_info_last_class (f : srcfile) (ns : namespace) (s : state)
  (b1 b2 : list stmt) (cname : string) (bases : list expr) (cb : list stmt)
  (c : pyclass) (vn vh : pyval) :
  sf_ast f = Some (b1 ++ SClassDef cname bases cb :: b2) -> sf_module f = Some ns ->
  Forall simple_assign b1 -> Forall (class_bound ns) b1 ->
  candidate_class cname bases = true -> assoc cname ns = Some (GClass c) ->
  is_kantek_plugin c = Ok true ->
  class_getattr c "name" = Ok vn -> class_getattr c "help" = Ok vh ->
  Forall simple_assign b2 -> Forall (class_bound ns) b2 -> plugin_classes ns b2 = [] ->
  exists info, fst (get_plugin_info f s) = Ok info /\ i_name info = vn /\ i_help info = vh.
Proof.
  intros Hast Hmod Hs1 Hc1 Hcand Hns Hk Hn Hh Hs2 Hc2 Hp2.
  rewrite (get_plugin_info_fst f _ ns s Hast Hmod), info_loop_app.
  destruct (info_loop_defaults ns b1 (PluginInfo (PyStr "") (PyStr "") (PyStr "")) Hs1 Hc1)
    as (i1 & Hi1 & _). rewrite Hi1. cbn [obind info_loop].
  rewrite Hcand. unfold module_getattr. rewrite Hns. cbn [obind issubclass_kantek obj_getattr].
  rewrite Hk, Hn, Hh. cbn [obind].
  destruct (info_loop_defaults ns b2 (PluginInfo (i_version i1) vn vh) Hs2 Hc2)
    as (info & Hi & _ & Hin & Hih).
  exists info. rewrite Hp2 in Hin, Hih.
  split; [exact Hi|]. split; [apply Hin | apply Hih]; constructor.
Qed.

(** X15. [_get_plugin_info] reports the value of the last top-level
    assignment to [__version__]. *)
Theorem get_plugin_info_last_version (f : srcfile) (ns : namespace) (s : state)
  (b1 b2 : list stmt) (v : pyval) :
  sf_ast f = Some (b1 ++ SAssign (TName "__version__") (EConstant v) :: b2) -> sf_module f = Some ns ->
  Forall simple_assign b1 -> Forall (class_bound ns) b1 ->
  Forall simple_assign b2 -> Forall (class_bound ns) b2 -> assigns_version b2 = false ->
  exists info, fst (get_plugin_info f s) = Ok info /\ i_version info = v.
Proof.
  intros Hast Hmod Hs1 Hc1 Hs2 Hc2 Hv2.
  rewrite (get_plugin_info_fst f _ ns s Hast Hmod), info_loop_app.
  destruct (info_loop_defaults ns b1 (PluginInfo (PyStr "") (PyStr "") (PyStr "")) Hs1 Hc1)
    as (i1 & Hi1 & _). rewrite Hi1. cbn [obind info_loop target_id value_s].
  rewrite String.eqb_refl. cbn [obind].
  destruct (info_loop_defaults ns b2 (PluginInfo v (i_name i1) (i_help i1)) Hs2 Hc2)
    as (info & Hi & Hiv & _).
  exists info. split; [exact Hi | exact (Hiv Hv2)].
Qed.

Lemma method_callbacks_sound (m : module) (plugin : pyobj) (cbody : list stmt) (cbs : list callback) :
  method_callbacks m plugin cbody = Ok cbs ->
  Forall (method_callback (m_id m) cbody) cbs.
Proof.
  revert cbs; induction cbody as [|st cbody IH]; intros cbs H; cbn [method_callbacks] in H.
  - injection H as <-. constructor.
  - assert (Hw : forall cb, method_callback (m_id m) cbody cb -> method_callback (m_id m) (st :: cbody) cb).
    { intros cb (decs & kw & Hin & R). exists decs, kw. split; [right; exact Hin | exact R]. }
    destruct st as [| |mname decs|]; try (eapply Forall_impl; [exact Hw | exact (IH _ H)]).
    destruct (obj_getattr plugin mname) as [func|ex]; cbn [obind] in H; [|discriminate].
    destruct (method_callbacks m plugin cbody) as [more|ex] eqn:Hm.
    2:{ destruct func as [| | | |f]; cbn in H; try discriminate.
        destruct (fn_builders f); cbn in H; [discriminate|].
        destruct (get_event_decorator_keywords decs); cbn in H; discriminate. }
    assert (Hmore : Forall (method_callback (m_id m) (SAsyncFunctionDef mname decs :: cbody)) more)
      by (eapply Forall_impl; [exact Hw | exact (IH _ eq_refl)]).
    destruct func as [| | | |f]; cbn [obind app] in H;
      try (injection H as <-; exact Hmore).
    destruct (is_handler (PyFun f)) eqn:Hh; cbn [obind app] in H; [|injection H as <-; exact Hmore].
    destruct (get_event_decorator_keywords decs) as [kw|ex] eqn:Hk; cbn [obind app] in H; [|discriminate].
    injection H as <-. constructor; [|exact Hmore].
    exists decs, kw. cbn. split; [left; reflexivity|]. split; [reflexivity|].
    split; [|split; [reflexivity | split; [exact Hk | reflexivity]]].
    cbn in Hh. destruct (fn_builders f); [discriminate | discriminate 1].
Qed.

(** X16. Every callback [_get_plugin_callbacks] returns comes from an async
    method of a top-level class of the file: the function object of the
    load that [_get_plugin_callbacks] itself performs, carrying at least one
    event builder, its docstring as help, and the privacy that
    [__is_private] gives for the keywords of its decorators. *)
Theorem get_plugin_callbacks_sound (f : srcfile) (s : state) (cbs : list callback) :
  fst (get_plugin_callbacks f s) = Ok cbs ->
  Forall (fun cb => exists body cname bases cbody,
            sf_ast f = Some body /\ In (SClassDef cname bases cbody) body /\
            method_callback (loads s) cbody cb) cbs.
Proof.
  rewrite get_plugin_callbacks_eq. unfold plugin_callbacks_result. cbn [fst].
  destruct (sf_ast f) as [body|]; [|discriminate].
  destruct (sf_module f) as [ns|]; [|discriminate].
  intros H. enough (Hb : Forall (fun cb => exists cname bases cbody,
            In (SClassDef cname bases cbody) body /\ method_callback (loads s) cbody cb) cbs).
  { eapply Forall_impl; [|exact Hb]. intros cb (cname & bases & cbody & Hin & Hm).
    exists body, cname, bases, cbody. auto. }
  clear f. revert cbs H; induction body as [|st body IH]; intros cbs H; cbn [body_callbacks] in H.
  - injection H as <-. constructor.
  - assert (Hw : forall cb, (exists cname bases cbody, In (SClassDef cname bases cbody) body /\
                                method_callback (loads s) cbody cb) ->
                 exists cname bases cbody, In (SClassDef cname bases cbody) (st :: body) /\
                                method_callback (loads s) cbody cb).
    { intros cb (cname & bases & cbody & Hin & Hm). exists cname, bases, cbody. split; [right|]; assumption. }
    destruct st as [|cname bases cbody| |]; try (eapply Forall_impl; [exact Hw | exact (IH _ H)]).
    assert (Hhere : forall here, (if candidate_class cname bases then
           plugin <-? module_getattr (m_ns (Module_ (loads s) ns)) cname ;
           sub <-? issubclass_kantek plugin ;
           if sub then method_callbacks (Module_ (loads s) ns) plugin cbody else Ok []
         else Ok []) = Ok here -> Forall (method_callback (loads s) cbody) here).
    { intros here Hh. destruct (candidate_class cname bases); [|injection Hh as <-; constructor].
      destruct (module_getattr _ cname) as [o|ex]; cbn [obind] in Hh; [|discriminate].
      destruct (issubclass_kantek o) as [[]|ex]; cbn [obind] in Hh; [| injection Hh as <-; constructor | discriminate].
      exact (method_callbacks_sound _ _ _ _ Hh). }
    destruct (if candidate_class cname bases then _ else _) as [here|ex] eqn:Hh; cbn [obind] in H; [|discriminate].
    destruct (body_callbacks _ body) as [more|ex] eqn:Hm; cbn [obind] in H; [|discriminate].
    injection H as <-. apply Forall_app. split.
    + eapply Forall_impl; [|exact (Hhere here eq_refl)]. intros cb Hcb.
      exists cname, bases, cbody. split; [left; reflexivity | exact Hcb].
    + eapply Forall_impl; [exact Hw | exact (IH _ eq_refl)].
Qed.

Lemma register_candidates_loads (e : env) (cands : list (string * string)) (s : state) :
  fst (register_candidates e cands s) = Ok tt ->
  loads (snd (register_candidates e cands s)) = loads s + 2 * length cands.
Proof.
  unfold register_candidates.
  revert s; induction cands as [|[n p] cands IH]; intros s; cbn [mforeach].
  - intros _. cbn. lia.
  - unfold bind. rewrite register_one_eq.
    destruct (plugin_info_result (files e p)) as [info|ex]; [|discriminate].
    destruct (plugin_callbacks_result (files e p) (S (loads s))) as [cbs|ex]; [|discriminate].
    intros Hok. rewrite (IH _ Hok). cbn [loads length]. lia.
Qed.

(** X17. [register_all] loads every plugin file twice, once in
    [_get_plugin_info] and once in [_get_plugin_callbacks]: a successful
    run executes the top-level code of the candidate files [2 * n] times
    for [n] candidates. *)
Theorem register_all_loads_twice (e : env) (s : state) (r : list plugin) (s1 : state) :
  register_all e s = (Ok r, s1) ->
  loads s1 = loads s + 2 * length (get_plugin_list e).
Proof.
  intros H. destruct (register_all_ok_inv e s r s1 H) as [Hc _].
  pose proof (register_candidates_loads e (get_plugin_list e) s) as Hl.
  rewrite Hc in Hl. exact (Hl eq_refl).
Qed.

(** ** Witnesses of the further properties *)

Lemma get_plugin_list_sound_witness :
  exists root files,
    In (root, files) (walk PingPlugin.env_ping) /\ In (String.append "ping" ".py") files /\
    "/app/kantek/plugins/ping.py" = PosixPath.join root (String.append "ping" ".py").
Proof.
  apply (get_plugin_list_sound PingPlugin.env_ping "ping" "/app/kantek/plugins/ping.py").
  vm_compute. left. reflexivity.
Defined.


Lemma unregister_plugin_active_witness :
  exists l1 l2,
    active_plugins Scenarios.ping_state = l1 ++ Scenarios.ping_plugin :: l2 /\
    ~ In Scenarios.ping_plugin l1 /\
    fst (unregister_plugin Scenarios.ping_plugin Scenarios.ping_state) = Ok tt /\
    active_plugins (snd (unregister_plugin Scenarios.ping_plugin Scenarios.ping_state)) = l1 ++ l2 /\
    (forall ev h, In (ev, h) (event_builders (snd (unregister_plugin Scenarios.ping_plugin Scenarios.ping_state))) <->
                  In (ev, h) (event_builders Scenarios.ping_state) /\
                  ~ In h (map cb_callback (p_callbacks Scenarios.ping_plugin))).
Proof.
  apply unregister_plugin_active. vm_compute. left. reflexivity.
Defined.

Lemma unregister_all_true_keeps_odds_witness :
  let s1 := snd (register_all Scenarios.env_two Scenarios.init) in
  unregister_all true s1 =
  (Ok tt, State (odds (active_plugins s1))
                (handlers_without (evens (active_plugins s1)) (event_builders s1))
                (loads s1)).
Proof.
  intros s1. apply unregister_all_true_keeps_odds.
  vm_compute. constructor; [|constructor; [|constructor]].
  - intros [H|[]]. discriminate H.
  - intros [].
Defined.


Lemma event_decorator_keywords_skip_other_witness :
  get_event_decorator_keywords ([] ++ ECall (EAttribute (EName "k") "command") [] [] :: [PingPlugin.decorator])
  = get_event_decorator_keywords ([] ++ [PingPlugin.decorator]).
Proof.
  apply (event_decorator_keywords_skip_other _ _ _ "k").
  - reflexivity.
  - intros H. discriminate H.
Defined.

Lemma get_keywords_non_call_arg_witness :
  get_keywords (ECall (EAttribute (EName "events") "register")
                      [EAttribute (EName "events") "NewMessage"] [])
  = Raise AttributeError.
Proof.
  apply (get_keywords_non_call_arg _ _ _ (EAttribute (EName "events") "NewMessage")).
  - left. reflexivity.
  - intros g x y H. discriminate H.
Defined.

Lemma get_keywords_last_literal_witness :
  exists d,
    get_keywords (ECall (EAttribute (EName "events") "register")
                        [ECall (EName "NewMessage") []
                               ([(Some "outgoing", EConstant (PyBool true))] ++
                                (Some "outgoing", EConstant (PyBool false)) ::
                                [(Some "outgoing", EName "flag"); (Some "pattern", EOther)])] [])
    = Ok d /\ dict_get "outgoing" d = Some false.
Proof.
  apply get_keywords_last_literal.
  - reflexivity.
  - repeat constructor.
Defined.

Lemma get_keywords_no_literal_witness :
  exists d,
    get_keywords (ECall (EAttribute (EName "events") "register")
                        [ECall (EName "NewMessage") []
                               [(Some "incoming", EName "flag"); (Some "pattern", EOther)]] [])
    = Ok d /\ dict_get "incoming" d = None.
Proof.
  apply get_keywords_no_literal. repeat constructor.
Defined.

Lemma get_plugin_info_last_class_witness :
  exists info, fst (get_plugin_info TwoClasses.file Scenarios.init) = Ok info /\
               i_name info = PyStr "b" /\ i_help info = PyStr "hb".
Proof.
  apply (get_plugin_info_last_class TwoClasses.file TwoClasses.ns Scenarios.init
           (firstn 3 TwoClasses.tree) [] "B" [EName "KantekPlugin"] [] TwoClasses.B).
  - reflexivity.
  - reflexivity.
  - constructor; [exists "__version__"; split; [reflexivity | intros _; eexists; reflexivity]|].
    constructor; [exact I|]. constructor; [|constructor].
    exists "__version__"; split; [reflexivity | intros _; eexists; reflexivity].
  - constructor; [exact I|]. constructor; [|constructor; [exact I | constructor]].
    intros _. exists TwoClasses.A, [TwoClasses.A; KantekPlugin]. split; vm_compute; reflexivity.
  - reflexivity.
  - reflexivity.
  - vm_compute. reflexivity.
  - vm_compute. reflexivity.
  - vm_compute. reflexivity.
  - constructor.
  - constructor.
  - reflexivity.
Defined.

Lemma get_plugin_info_last_version_witness :
  exists info, fst (get_plugin_info TwoClasses.file Scenarios.init) = Ok info /\
               i_version info = PyStr "2".
Proof.
  apply (get_plugin_info_last_version TwoClasses.file TwoClasses.ns Scenarios.init
           (firstn 2 TwoClasses.tree) [SClassDef "B" [EName "KantekPlugin"] []]).
  - reflexivity.
  - reflexivity.
  - constructor; [exists "__version__"; split; [reflexivity | intros _; eexists; reflexivity]|].
    constructor; [exact I | constructor].
  - constructor; [exact I|]. constructor; [|constructor].
    intros _. exists TwoClasses.A, [TwoClasses.A; KantekPlugin]. split; vm_compute; reflexivity.
  - constructor; [exact I | constructor].
  - constructor; [|constructor].
    intros _. exists TwoClasses.B, [TwoClasses.B; KantekPlugin]. split; vm_compute; reflexivity.
  - reflexivity.
Defined.

Lemma get_plugin_callbacks_sound_witness :
  exists cbs,
    fst (get_plugin_callbacks PingPlugin.file Scenarios.init) = Ok cbs /\
    Forall (fun cb => exists body cname bases cbody,
              sf_ast PingPlugin.file = Some body /\ In (SClassDef cname bases cbody) body /\
              method_callback (loads Scenarios.init) cbody cb) cbs.
Proof.
  eexists. split.
  - vm_compute. reflexivity.
  - apply get_plugin_callbacks_sound. vm_compute. reflexivity.
Defined.

Lemma register_all_loads_twice_witness :
  loads (snd (register_all Scenarios.env_two Scenarios.init))
  = loads Scenarios.init + 2 * length (get_plugin_list Scenarios.env_two).
Proof.
  apply (register_all_loads_twice _ _ (fst (match fst (register_all Scenarios.env_two Scenarios.init) with
                                            | Ok r => (r, tt) | Raise _ => ([], tt) end))).
  vm_compute. reflexivity.
Defined.
